(** * Config Compare: the comparison engine of backend/utils and backend/main.py

    A shallow embedding of the three comparators ([compare_json],
    [compare_yaml], [compare_xml]), of the XML adapter ([xml_to_dict],
    [compare_xml_dicts]), of the three line annotators and of the request
    handler [compare_files], followed by the properties of the engine.

    Python values are an inductive type, dictionaries are association lists
    in insertion order, exceptions are the [Raise] branch of an error monad.
    The parsers [json.loads], [yaml.safe_load] and [ET.fromstring] are
    collaborators of the engine and enter as section variables. *)

From Stdlib Require Import List String Ascii Bool Arith ZArith QArith Lia.
From Stdlib Require Import DecimalString Permutation.
Import ListNotations.
Close Scope Q_scope.
Local Open Scope nat_scope.
Local Open Scope list_scope.
Local Open Scope string_scope.

Set Implicit Arguments.
Set Warnings "-register-all".

(* ===================================================================== *)
(** ** Python strings *)
(* ===================================================================== *)

Module PyStr.

(** Strings stand for Python's [str] by their UTF-8 bytes. The characters
    [str.strip] removes are those of [str.isspace]. In ASCII: tab, line
    feed, vertical tab, form feed, carriage return, the four separators
    0x1c..0x1f and the space. *)
Definition ascii_space (a : ascii) : bool :=
  let n := nat_of_ascii a in
  (((9 <=? n) && (n <=? 13)) || ((28 <=? n) && (n <=? 32)))%nat.

(** U+0085 (next line) and U+00A0 (no-break space), two bytes each. *)
Definition two_byte_space (a b : ascii) : bool :=
  let a := nat_of_ascii a in
  let b := nat_of_ascii b in
  ((a =? 194) && ((b =? 133) || (b =? 160)))%nat.

(** U+1680, U+2000..U+200A, U+2028, U+2029, U+202F, U+205F and U+3000,
    three bytes each. *)
Definition three_byte_space (a b c : ascii) : bool :=
  let a := nat_of_ascii a in
  let b := nat_of_ascii b in
  let c := nat_of_ascii c in
  (((a =? 225) && (b =? 154) && (c =? 128)) ||
   ((a =? 226) && (b =? 128) &&
    (((128 <=? c) && (c <=? 138)) || (c =? 168) || (c =? 169) || (c =? 175))) ||
   ((a =? 226) && (b =? 129) && (c =? 159)) ||
   ((a =? 227) && (b =? 128) && (c =? 128)))%nat.

(** [s.lstrip()] *)
Fixpoint lstrip (s : string) : string :=
  match s with
  | EmptyString => EmptyString
  | String a s1 =>
      if ascii_space a then lstrip s1
      else
        match s1 with
        | EmptyString => s
        | String b s2 =>
            if two_byte_space a b then lstrip s2
            else
              match s2 with
              | EmptyString => s
              | String c s3 => if three_byte_space a b c then lstrip s3 else s
              end
        end
  end.

(** Every character of [s] is white space: nothing is left of it once the
    white space in front is taken away. *)
Definition all_space (s : string) : bool :=
  match lstrip s with
  | EmptyString => true
  | _ => false
  end.

(** [s.rstrip()]: the string up to the point behind which all is white
    space. *)
Fixpoint rstrip (s : string) : string :=
  match s with
  | EmptyString => EmptyString
  | String a s1 => if all_space s then EmptyString else String a (rstrip s1)
  end.

(** [s.strip()] *)
Definition strip (s : string) : string := rstrip (lstrip s).

Definition lower_char (c : ascii) : ascii :=
  let n := nat_of_ascii c in
  if ((65 <=? n) && (n <=? 90))%nat then ascii_of_nat (n + 32) else c.

(** [s.lower()] on ASCII letters; other bytes are left as they are *)
Fixpoint lower (s : string) : string :=
  match s with
  | EmptyString => EmptyString
  | String c s' => String (lower_char c) (lower s')
  end.

(** [s.split(sep)] for a one-character separator: never the empty list,
    one more piece than there are separators. *)
Fixpoint split (sep : ascii) (s : string) : list string :=
  match s with
  | EmptyString => [EmptyString]
  | String c s' =>
      if Ascii.eqb c sep then EmptyString :: split sep s'
      else match split sep s' with
           | [] => [String c EmptyString]
           | piece :: rest => String c piece :: rest
           end
  end.

Fixpoint startswith (s p : string) {struct p} : bool :=
  match p, s with
  | EmptyString, _ => true
  | String _ _, EmptyString => false
  | String a p', String b s' => Ascii.eqb a b && startswith s' p'
  end.

(** [part in line]: [part] occurs in [line] as a contiguous substring. *)
Fixpoint contains (line part : string) : bool :=
  startswith line part ||
  match line with
  | EmptyString => false
  | String _ line' => contains line' part
  end.

(** [str(n)] for a natural number *)
Definition of_nat (n : nat) : string := NilZero.string_of_uint (Nat.to_uint n).

Definition newline : ascii := ascii_of_nat 10.
Definition dot : ascii := ascii_of_nat 46.
(** the double quote character, as a one-character string *)
Definition dq : string := String (ascii_of_nat 34) EmptyString.

(** [key in keys] for a list of strings *)
Definition mem (key : string) (keys : list string) : bool :=
  existsb (String.eqb key) keys.

End PyStr.

(* ===================================================================== *)
(** ** Python values, dictionaries and [==] *)
(* ===================================================================== *)

(** What the parsers return: [None], booleans, integers, floats (the finite
    ones, as rationals), strings, lists, and dictionaries with string keys
    in insertion order. *)
Inductive value : Type :=
| VNone
| VBool (b : bool)
| VInt (z : Z)
| VFloat (q : Q)
| VStr (s : string)
| VList (items : list value)
| VDict (entries : list (string * value)).

Definition pydict : Type := list (string * value).

Module PyDict.

(** [d.get(key)] / [d[key]] *)
Fixpoint get (key : string) (d : pydict) : option value :=
  match d with
  | [] => None
  | (k, v) :: d' => if String.eqb key k then Some v else get key d'
  end.

(** [key in d] *)
Definition mem (key : string) (d : pydict) : bool :=
  match get key d with Some _ => true | None => false end.

(** [d[key] = v]: an existing key keeps its place, a new one goes last. *)
Fixpoint set (key : string) (v : value) (d : pydict) : pydict :=
  match d with
  | [] => [(key, v)]
  | (k, w) :: d' => if String.eqb key k then (k, v) :: d' else (k, w) :: set key v d'
  end.

Definition keys (d : pydict) : list string := map fst d.

End PyDict.

(** The number a numeric value stands for ([True == 1] and [1 == 1.0] hold
    in Python). *)
Definition numeric (v : value) : option Q :=
  match v with
  | VBool b => Some (if b then 1%Q else 0%Q)
  | VInt z => Some (inject_Z z)
  | VFloat q => Some q
  | _ => None
  end.

Section All2.
Variables (A B : Type) (same : A -> B -> bool).

(** Both lists have the same length and [same] holds position by position. *)
Fixpoint all2 (xs : list A) (ys : list B) {struct xs} : bool :=
  match xs, ys with
  | [], [] => true
  | x :: xs', y :: ys' => same x y && all2 xs' ys'
  | _, _ => false
  end.
End All2.

(** [a == b] on parsed values: lists position by position, dictionaries key
    by key whatever the order, numbers by value. *)
Fixpoint py_eq (a b : value) {struct a} : bool :=
  match a, b with
  | VNone, VNone => true
  | VStr s, VStr t => String.eqb s t
  | VList xs, VList ys => all2 (fun x y => py_eq x y) xs ys
  | VDict d1, VDict d2 =>
      Nat.eqb (List.length d1) (List.length d2) &&
      forallb (fun kv : string * value =>
                 match PyDict.get (fst kv) d2 with
                 | Some w => py_eq (snd kv) w
                 | None => false
                 end) d1
  | _, _ =>
      match numeric a, numeric b with
      | Some p, Some q => Qeq_bool p q
      | _, _ => false
      end
  end.

(* ===================================================================== *)
(** ** Exceptions *)
(* ===================================================================== *)

Inductive exn_class : Type :=
| JSONDecodeError      (* json.JSONDecodeError *)
| YAMLError            (* yaml.YAMLError *)
| ParseError           (* xml.etree.ElementTree.ParseError *)
| TypeError
| KeyError
| IndexError
| PlainException       (* Exception(...) raised by the comparators *)
| HTTPException (status_code : nat).

Record exn : Type := mkExn { exn_kind : exn_class; exn_text : string }.

(** [str(e)] *)
Definition str_exn (e : exn) : string :=
  match exn_kind e with
  | HTTPException code => PyStr.of_nat code ++ ": " ++ exn_text e
  | _ => exn_text e
  end.

Inductive result (A : Type) : Type :=
| Ok (a : A)
| Raise (e : exn).
Arguments Ok {A} a.
Arguments Raise {A} e.

Definition bind {A B : Type} (m : result A) (k : A -> result B) : result B :=
  match m with
  | Ok a => k a
  | Raise e => Raise e
  end.

(** [try: m except Exception as e: handler e] *)
Definition try_except {A : Type} (m : result A) (handler : exn -> result A) : result A :=
  match m with
  | Ok a => Ok a
  | Raise e => handler e
  end.

Notation "x <- m ;; k" := (bind m (fun x => k))
  (at level 61, m at next level, right associativity).

Fixpoint mapM {A B : Type} (f : A -> result B) (l : list A) : result (list B) :=
  match l with
  | [] => Ok []
  | a :: l' => b <- f a ;; bs <- mapM f l' ;; Ok (b :: bs)
  end.

(* ===================================================================== *)
(** ** The result of a comparison *)
(* ===================================================================== *)

Inductive change_kind : Type := addition | deletion | modification.

Definition change_kind_eqb (a b : change_kind) : bool :=
  match a, b with
  | addition, addition | deletion, deletion | modification, modification => true
  | _, _ => false
  end.

(** One entry of the [diff] list: [{"path", "change_type", "old_value"?,
    "new_value"?}]. *)
Record change : Type := mkChange {
  path : string;
  change_type : change_kind;
  old_value : option value;
  new_value : option value
}.

Record summary_t : Type := mkSummary {
  additions : nat;
  deletions : nat;
  modifications : nat
}.

Record formatted_t : Type := mkFormatted {
  source : list string;
  target : list string
}.

Record comparison : Type := mkComparison {
  summary : summary_t;
  diff : list change;
  formatted_diff : formatted_t
}.

(** [sum(1 for change in changes if change['change_type'] == kind)] *)
Definition count_kind (kind : change_kind) (changes : list change) : nat :=
  List.length (filter (fun c => change_kind_eqb (change_type c) kind) changes).

(* ===================================================================== *)
(** ** The XML adapter (utils/xml_diff.py) *)
(* ===================================================================== *)

(** An [xml.etree.ElementTree.Element] as the adapter reads it: the tag, the
    text before the first child ([None] when there is none) and the child
    elements in document order. Attributes and tails are never read. *)
Inductive element : Type :=
| Element (tag : string) (text : option string) (children : list element).

Definition tag_of (e : element) : string :=
  match e with Element tag _ _ => tag end.

Definition text_of (e : element) : option string :=
  match e with Element _ text _ => text end.

Definition children_of (e : element) : list element :=
  match e with Element _ _ children => children end.

(** [if element.text and element.text.strip(): result['text'] = ...] *)
Definition hoist_text (text : option string) : pydict :=
  match text with
  | None => []
  | Some t =>
      match PyStr.strip t with
      | EmptyString => []
      | stripped => [("text", VStr stripped)]
      end
  end.

(** One turn of [for child in element]: a tag seen before turns its entry
    into a list (unless it is one already) and appends; a new tag is set. *)
Definition add_child (result : pydict) (child : string * value) : pydict :=
  let (child_tag, child_data) := child in
  match PyDict.get child_tag result with
  | Some (VList seen) => PyDict.set child_tag (VList (seen ++ [child_data])%list) result
  | Some prior => PyDict.set child_tag (VList ([prior] ++ [child_data])%list) result
  | None => PyDict.set child_tag child_data result
  end.

Fixpoint xml_to_dict (e : element) : value :=
  match e with
  | Element _ text children =>
      VDict (fold_left add_child
               (map (fun child => (tag_of child, xml_to_dict child)) children)
               (hoist_text text))
  end.

(** The dictionary inside a value ([xml_to_dict] always returns one). *)
Definition as_dict (v : value) : pydict :=
  match v with VDict d => d | _ => [] end.

(** [compare_xml_dicts(source_dict, target, ignore_keys, path)] with the
    target dictionary wrapped as a value, so that the recursion on the
    nested target is structural. *)
Fixpoint compare_xml_values (source_dict : pydict) (target : value)
    (ignore_keys : list string) (path0 : string) {struct target} : list change :=
  match target with
  | VDict target_dict =>
      List.app
        (* for key, value in target_dict.items() *)
        (flat_map
           (fun kv : string * value =>
              if PyStr.mem (fst kv) ignore_keys then []
              else
                let current_path := path0 ++ "." ++ fst kv in
                match PyDict.get (fst kv) source_dict with
                | None => [mkChange current_path addition None (Some (snd kv))]
                | Some old =>
                    if negb (py_eq old (snd kv)) then
                      match snd kv, old with
                      | VDict _, VDict old_dict =>
                          compare_xml_values old_dict (snd kv) ignore_keys current_path
                      | _, _ =>
                          [mkChange current_path modification (Some old) (Some (snd kv))]
                      end
                    else []
                end)
           target_dict)
        (* for key, value in source_dict.items() *)
        (flat_map
           (fun kv : string * value =>
              if PyStr.mem (fst kv) ignore_keys then []
              else if PyDict.mem (fst kv) target_dict then []
              else [mkChange (path0 ++ "." ++ fst kv) deletion (Some (snd kv)) None])
           source_dict)
  | _ => []
  end.

Definition compare_xml_dicts (source_dict target_dict : pydict)
    (ignore_keys : list string) (path0 : string) : list change :=
  compare_xml_values source_dict (VDict target_dict) ignore_keys path0.

(** [any(change['change_type'] == kind and
         any(part in line for part in change['path'].split('.'))
         for change in changes)] *)
Definition has_change (kind : change_kind) (changes : list change) (line : string) : bool :=
  existsb (fun c => change_kind_eqb (change_type c) kind &&
                    existsb (PyStr.contains line) (PyStr.split PyStr.dot (path c)))
          changes.

Definition xml_source_line (changes : list change) (line : string) : string :=
  if has_change deletion changes line then "- " ++ line
  else if has_change modification changes line then "~ " ++ line
  else "  " ++ line.

Definition xml_target_line (changes : list change) (line : string) : string :=
  if has_change addition changes line then "+ " ++ line
  else if has_change modification changes line then "~ " ++ line
  else "  " ++ line.

Definition create_formatted_xml_diff (source_content target_content : string)
    (changes : list change) : formatted_t :=
  let source_lines := PyStr.split PyStr.newline source_content in
  let target_lines := PyStr.split PyStr.newline target_content in
  mkFormatted (map (xml_source_line changes) source_lines)
              (map (xml_target_line changes) target_lines).

Definition summarize (changes : list change) : summary_t :=
  mkSummary (count_kind addition changes)
            (count_kind deletion changes)
            (count_kind modification changes).

(* ===================================================================== *)
(** ** DeepDiff, as the JSON and YAML comparators call it *)
(* ===================================================================== *)

(** [deepdiff.DeepDiff] is a third-party library, not part of the
    repository. This module models the part of it the comparators rely on:
    the text view of [DeepDiff(t1, t2, ignore_order=..., exclude_paths=...)]
    at the default [verbose_level=1], on the values above.

    - Paths are strings in bracket notation: [root], [root['key']],
      [root['key'][2]]; a key that holds an apostrophe is written between
      double quotes.
    - Two values of different Python types are a [type_changes] entry
      ([1] against [1.0], [True] against [1], a list against a dict).
    - Dictionaries: keys only in [t2] are [dictionary_item_added], keys only
      in [t1] are [dictionary_item_removed], common keys are compared
      recursively, in the key order of [t2].
    - Lists, [ignore_order=False]: compared position by position; surplus
      positions are [iterable_item_added] / [iterable_item_removed]. The
      library first aligns two lists of scalars with [difflib] and keeps
      the aligned report when it is the shorter one. The alignment is not
      modelled: the model stands for the library where the positional
      report is the one kept or both agree, as on equal lists, on a list
      against one of its prefixes, and on [[1,2,3]] against [[3,2,1]],
      the lists the statements below use.
    - Lists, [ignore_order=True]: compared as sets of items (by DeepHash,
      which also ignores order and repetition inside nested lists); an item
      of one side with no equal on the other is reported under
      [iterable_item_added] / [iterable_item_removed] at its first index.
      The library also pairs up unmatched items of both sides by similarity
      and compares the pairs. The pairing is not modelled: the model stands
      for the library where at most one side has unmatched items.
    - Numbers are the integers and the finite floats; NaN and the
      infinities are left out.
    - [exclude_paths]: a level whose path is listed is skipped with
      everything below it. Entries that do not start with [root] are
      completed by [add_root_to_paths], which raises [IndexError] on an
      empty entry.
    - At [verbose_level=1] the sections [dictionary_item_added] and
      [dictionary_item_removed] are ordered SETS of paths; the other
      sections are dictionaries keyed by path. *)
Module DeepDiffLib.

(** A section of the report, as a Python container. *)
Inductive section (A : Type) : Type :=
| SetOrdered (paths : list string)
| PathDict (items : list (string * A)).
Arguments SetOrdered {A} paths.
Arguments PathDict {A} items.

(** [for path in section] *)
Definition keys {A : Type} (s : section A) : list string :=
  match s with
  | SetOrdered paths => paths
  | PathDict items => map fst items
  end.

(** [len(section)] *)
Definition len {A : Type} (s : section A) : nat := List.length (keys s).

Fixpoint assoc {A : Type} (key : string) (items : list (string * A)) : option A :=
  match items with
  | [] => None
  | (k, a) :: rest => if String.eqb key k then Some a else assoc key rest
  end.

(** Text of the [TypeError] raised when the set of paths is indexed by a
    path. *)
Definition set_index_error : string :=
  "list indices must be integers or slices, not str".

(** [section[path]]: a dictionary is looked up, a set cannot be indexed
    by a string. *)
Definition getitem {A : Type} (s : section A) (key : string) : result A :=
  match s with
  | SetOrdered _ => Raise (mkExn TypeError set_index_error)
  | PathDict items =>
      match assoc key items with
      | Some a => Ok a
      | None => Raise (mkExn KeyError key)
      end
  end.

(** [{'new_value': ..., 'old_value': ...}] *)
Record delta : Type := mkDelta { new_value_of : value; old_value_of : value }.

Record report : Type := mkReport {
  dictionary_item_added : section value;
  dictionary_item_removed : section value;
  values_changed : section delta;
  type_changes : section delta;
  iterable_item_added : section value;
  iterable_item_removed : section value
}.

(** The tree of findings before it is rendered as text. *)
Record tree : Type := mkTree {
  t_added : list string;
  t_removed : list string;
  t_changed : list (string * delta);
  t_types : list (string * delta);
  t_iter_added : list (string * value);
  t_iter_removed : list (string * value)
}.

Definition nothing : tree := mkTree [] [] [] [] [] [].

Definition merge (a b : tree) : tree :=
  mkTree (t_added a ++ t_added b)%list (t_removed a ++ t_removed b)%list
         (t_changed a ++ t_changed b)%list (t_types a ++ t_types b)%list
         (t_iter_added a ++ t_iter_added b)%list
         (t_iter_removed a ++ t_iter_removed b)%list.

Definition merge_all (ts : list tree) : tree := fold_right merge nothing ts.

Definition render (t : tree) : report :=
  mkReport (SetOrdered (t_added t)) (SetOrdered (t_removed t))
           (PathDict (t_changed t)) (PathDict (t_types t))
           (PathDict (t_iter_added t)) (PathDict (t_iter_removed t)).

(** A key as it is written in a path: between single quotes, or between
    double quotes when the key holds an apostrophe. *)
Definition quote_key (key : string) : string :=
  if PyStr.contains key "'" then PyStr.dq ++ key ++ PyStr.dq
  else "'" ++ key ++ "'".

Definition key_path (p key : string) : string := p ++ "[" ++ quote_key key ++ "]".
Definition index_path (p : string) (i : nat) : string := p ++ "[" ++ PyStr.of_nat i ++ "]".

(** Equality of DeepHash digests with repetition ignored: same type, same
    content; lists as sets; dictionaries key by key. *)
Fixpoint same_hash (a b : value) {struct a} : bool :=
  match a, b with
  | VNone, VNone => true
  | VBool x, VBool y => Bool.eqb x y
  | VInt x, VInt y => Z.eqb x y
  | VFloat x, VFloat y => Qeq_bool x y
  | VStr x, VStr y => String.eqb x y
  | VList xs, VList ys =>
      forallb (fun x => existsb (fun y => same_hash x y) ys) xs &&
      forallb (fun y => existsb (fun x => same_hash x y) xs) ys
  | VDict d1, VDict d2 =>
      forallb (fun kv : string * value => PyDict.mem (fst kv) d1) d2 &&
      forallb (fun kv : string * value =>
                 match PyDict.get (fst kv) d2 with
                 | Some w => same_hash (snd kv) w
                 | None => false
                 end) d1
  | _, _ => false
  end.

(** Items of [mine] (with their index, from [i] on) that have no equal in
    [others] and none earlier in [mine]. *)
Fixpoint unmatched (others seen mine : list value) (i : nat) : list (nat * value) :=
  match mine with
  | [] => []
  | x :: rest =>
      (if existsb (same_hash x) others || existsb (same_hash x) seen then []
       else [(i, x)]) ++ unmatched others (x :: seen) rest (S i)
  end%list.

Section Pairwise.
(** What to do with a pair at a position, with a surplus item of [t2]
    and with the surplus items of [t1]. *)
Variable both : value -> value -> nat -> tree.
Variable only_new : value -> nat -> tree.
Variable only_old : list value -> nat -> tree.

(** The items of two lists position by position, from position [i]. *)
Fixpoint pairwise (l1 l2 : list value) (i : nat) {struct l2} : tree :=
  match l1, l2 with
  | _, [] => only_old l1 i
  | [], y :: l2' => merge (only_new y i) (pairwise [] l2' (S i))
  | x :: l1', y :: l2' => merge (both x y i) (pairwise l1' l2' (S i))
  end.
End Pairwise.

Section Levels.
(** [skip p]: the path [p] is excluded. *)
Variable skip : string -> bool.
Variable ignore_order : bool.

Definition report_added (p : string) : tree :=
  if skip p then nothing else mkTree [p] [] [] [] [] [].
Definition report_removed (p : string) : tree :=
  if skip p then nothing else mkTree [] [p] [] [] [] [].
Definition report_changed (p : string) (t1 t2 : value) : tree :=
  if skip p then nothing else mkTree [] [] [(p, mkDelta t2 t1)] [] [] [].
Definition report_types (p : string) (t1 t2 : value) : tree :=
  if skip p then nothing else mkTree [] [] [] [(p, mkDelta t2 t1)] [] [].
Definition report_iter_added (p : string) (item : value) : tree :=
  if skip p then nothing else mkTree [] [] [] [] [(p, item)] [].
Definition report_iter_removed (p : string) (item : value) : tree :=
  if skip p then nothing else mkTree [] [] [] [] [] [(p, item)].

(** Surplus items of [t1], from position [i] on. *)
Fixpoint surplus_removed (p : string) (rest : list value) (i : nat) : tree :=
  match rest with
  | [] => nothing
  | x :: rest' =>
      merge (report_iter_removed (index_path p i) x) (surplus_removed p rest' (S i))
  end.

(** Keys of [d2] that [d1] lacks, in the order of [d2]. *)
Definition keys_missing_from (d1 d2 : pydict) : list string :=
  map fst (filter (fun kv : string * value => negb (PyDict.mem (fst kv) d1)) d2).

(** [_diff(level)] at path [p]. *)
Fixpoint diff_level (t1 t2 : value) (p : string) {struct t2} : tree :=
  if skip p then nothing
  else
    match t1, t2 with
    | VNone, VNone => nothing
    | VBool a, VBool b => if Bool.eqb a b then nothing else report_changed p t1 t2
    | VInt a, VInt b => if Z.eqb a b then nothing else report_changed p t1 t2
    | VFloat a, VFloat b => if Qeq_bool a b then nothing else report_changed p t1 t2
    | VStr a, VStr b => if String.eqb a b then nothing else report_changed p t1 t2
    | VDict d1, VDict d2 =>
        merge
          (merge_all (map (fun key => report_added (key_path p key))
                          (keys_missing_from d1 d2)))
          (merge
             (merge_all (map (fun key => report_removed (key_path p key))
                             (keys_missing_from d2 d1)))
             (merge_all
                (map (fun kv : string * value =>
                        match PyDict.get (fst kv) d1 with
                        | Some v1 => diff_level v1 (snd kv) (key_path p (fst kv))
                        | None => nothing
                        end)
                     d2)))
    | VList l1, VList l2 =>
        if ignore_order then
          merge
            (merge_all
               (map (fun iy : nat * value =>
                       report_iter_added (index_path p (fst iy)) (snd iy))
                    (unmatched l1 [] l2 0)))
            (merge_all
               (map (fun ix : nat * value =>
                       report_iter_removed (index_path p (fst ix)) (snd ix))
                    (unmatched l2 [] l1 0)))
        else
          pairwise (fun x y i => diff_level x y (index_path p i))
                   (fun y i => report_iter_added (index_path p i) y)
                   (surplus_removed p)
                   l1 l2 0
    | _, _ => report_types p t1 t2
    end.
End Levels.

(** The ASCII digits. (A digit outside ASCII would change the completions
    below, but only into paths that no level has.) *)
Definition is_digit (c : ascii) : bool :=
  let n := nat_of_ascii c in ((48 <=? n) && (n <=? 57))%nat.

(** [s.isdigit()] *)
Definition isdigit (s : string) : bool :=
  match s with
  | EmptyString => false
  | _ => forallb is_digit (list_ascii_of_string s)
  end.

Definition index_out_of_range : string := "string index out of range".

(** How one [exclude_paths] entry is completed: an entry that starts with
    [root] stands for itself; a number for the key and for the index; any
    other entry for the key of the root, and, unless its first character is
    a digit, for the attribute of the root too. Looking at the first
    character of an empty entry raises [IndexError]. *)
Definition add_root_to_path (path : string) : result (list string) :=
  if PyStr.startswith path "root" then Ok [path]
  else if isdigit path then Ok ["root['" ++ path ++ "']"; "root[" ++ path ++ "]"]
  else match path with
       | EmptyString => Raise (mkExn IndexError index_out_of_range)
       | String first _ =>
           if is_digit first then Ok ["root['" ++ path ++ "']"]
           else Ok ["root." ++ path; "root['" ++ path ++ "']"]
       end.

Fixpoint add_root_to_paths (paths : list string) : result (list string) :=
  match paths with
  | [] => Ok []
  | path :: rest =>
      completed <- add_root_to_path path ;;
      others <- add_root_to_paths rest ;;
      Ok (completed ++ others)%list
  end.

(** [DeepDiff(t1, t2, ignore_order=ignore_order, exclude_paths=exclude_paths)] *)
Definition DeepDiff (t1 t2 : value) (ignore_order : bool)
    (exclude_paths : list string) : result report :=
  excluded <- add_root_to_paths exclude_paths ;;
  Ok (render (diff_level (fun p => PyStr.mem p excluded) ignore_order t1 t2 "root")).

End DeepDiffLib.

(* ===================================================================== *)
(** ** The JSON and YAML comparators (utils/json_diff.py, utils/yaml_diff.py) *)
(* ===================================================================== *)

Import DeepDiffLib.

(** [any(key in line for key in diff.get(section, []))] *)
Definition any_key_in {A : Type} (s : section A) (line : string) : bool :=
  existsb (PyStr.contains line) (keys s).

Definition json_source_line (d : report) (line : string) : string :=
  if any_key_in (dictionary_item_removed d) line then "- " ++ line
  else if any_key_in (values_changed d) line then "~ " ++ line
  else "  " ++ line.

Definition json_target_line (d : report) (line : string) : string :=
  if any_key_in (dictionary_item_added d) line then "+ " ++ line
  else if any_key_in (values_changed d) line then "~ " ++ line
  else "  " ++ line.

Definition create_formatted_json_diff (source_content target_content : string)
    (d : report) : formatted_t :=
  let source_lines := PyStr.split PyStr.newline source_content in
  let target_lines := PyStr.split PyStr.newline target_content in
  mkFormatted (map (json_source_line d) source_lines)
              (map (json_target_line d) target_lines).

Definition yaml_source_line (d : report) (line : string) : string :=
  if any_key_in (dictionary_item_removed d) line then "- " ++ line
  else if any_key_in (values_changed d) line then "~ " ++ line
  else "  " ++ line.

Definition yaml_target_line (d : report) (line : string) : string :=
  if any_key_in (dictionary_item_added d) line then "+ " ++ line
  else if any_key_in (values_changed d) line then "~ " ++ line
  else "  " ++ line.

Definition create_formatted_yaml_diff (source_content target_content : string)
    (d : report) : formatted_t :=
  let source_lines := PyStr.split PyStr.newline source_content in
  let target_lines := PyStr.split PyStr.newline target_content in
  mkFormatted (map (yaml_source_line d) source_lines)
              (map (yaml_target_line d) target_lines).

(** The [summary] dictionary of both comparators. *)
Definition deepdiff_summary (d : report) : summary_t :=
  mkSummary (len (dictionary_item_added d) + len (iterable_item_added d))
            (len (dictionary_item_removed d) + len (iterable_item_removed d))
            (len (values_changed d)).

(** The three loops that fill [detailed_diff]. *)
Definition handle_additions (d : report) : result (list change) :=
  mapM (fun p => v <- getitem (dictionary_item_added d) p ;;
                 Ok (mkChange p addition None (Some v)))
       (keys (dictionary_item_added d)).

Definition handle_deletions (d : report) : result (list change) :=
  mapM (fun p => v <- getitem (dictionary_item_removed d) p ;;
                 Ok (mkChange p deletion (Some v) None))
       (keys (dictionary_item_removed d)).

Definition handle_modifications (d : report) : result (list change) :=
  mapM (fun p => ch <- getitem (values_changed d) p ;;
                 Ok (mkChange p modification (Some (old_value_of ch)) (Some (new_value_of ch))))
       (keys (values_changed d)).

Definition detailed_diff (d : report) : result (list change) :=
  added <- handle_additions d ;;
  removed <- handle_deletions d ;;
  changed <- handle_modifications d ;;
  Ok (added ++ removed ++ changed)%list.

Section Comparators.

(** The parsers: [json.loads], [yaml.safe_load], [ET.fromstring]. *)
Variable json_loads : string -> result value.
Variable yaml_safe_load : string -> result value.
Variable ET_fromstring : string -> result element.

Definition compare_json (source_content target_content : string)
    (ignore_keys : list string) (strict : bool) : result comparison :=
  try_except
    (source_data <- json_loads source_content ;;
     target_data <- json_loads target_content ;;
     d <- DeepDiff source_data target_data (negb strict) ignore_keys ;;
     let formatted := create_formatted_json_diff source_content target_content d in
     let counts := deepdiff_summary d in
     records <- detailed_diff d ;;
     Ok (mkComparison counts records formatted))
    (fun e => Raise (mkExn PlainException ("JSON comparison failed: " ++ str_exn e))).

Definition compare_yaml (source_content target_content : string)
    (ignore_keys : list string) (strict : bool) : result comparison :=
  try_except
    (source_data <- yaml_safe_load source_content ;;
     target_data <- yaml_safe_load target_content ;;
     d <- DeepDiff source_data target_data (negb strict) ignore_keys ;;
     let formatted := create_formatted_yaml_diff source_content target_content d in
     let counts := deepdiff_summary d in
     records <- detailed_diff d ;;
     Ok (mkComparison counts records formatted))
    (fun e => Raise (mkExn PlainException ("YAML comparison failed: " ++ str_exn e))).

Definition compare_xml (source_content target_content : string)
    (ignore_keys : list string) (strict : bool) : result comparison :=
  try_except
    (source_root <- ET_fromstring source_content ;;
     target_root <- ET_fromstring target_content ;;
     let source_dict := as_dict (xml_to_dict source_root) in
     let target_dict := as_dict (xml_to_dict target_root) in
     let changes := compare_xml_dicts source_dict target_dict ignore_keys "root" in
     let formatted := create_formatted_xml_diff source_content target_content changes in
     Ok (mkComparison (summarize changes) changes formatted))
    (fun e => Raise (mkExn PlainException ("XML comparison failed: " ++ str_exn e))).

(* ------------------------------------------------------------------- *)
(** *** The request handler (main.py) *)
(* ------------------------------------------------------------------- *)

Record CompareRequest : Type := mkRequest {
  request_source_content : string;
  request_target_content : string;
  request_format : string;
  request_ignore_keys : option (list string);
  request_strict : option bool
}.

(** [request.ignore_keys or []] *)
Definition or_empty (keys : option (list string)) : list string :=
  match keys with Some l => l | None => [] end.

(** Truth value of [request.strict], which may be [None]. *)
Definition truth (strict : option bool) : bool :=
  match strict with Some b => b | None => false end.

Definition dispatch (request : CompareRequest) : result comparison :=
  let source_content := PyStr.strip (request_source_content request) in
  let target_content := PyStr.strip (request_target_content request) in
  let file_format := PyStr.lower (request_format request) in
  let ignore_keys := or_empty (request_ignore_keys request) in
  let strict := truth (request_strict request) in
  if String.eqb file_format "json" then
    compare_json source_content target_content ignore_keys strict
  else if String.eqb file_format "yaml" then
    compare_yaml source_content target_content ignore_keys strict
  else if String.eqb file_format "xml" then
    compare_xml source_content target_content ignore_keys strict
  else Raise (mkExn (HTTPException 400) ("Unsupported format: " ++ file_format)).

(** The [except] clauses of [compare_files], tried in order. *)
Definition classify (e : exn) : exn :=
  match exn_kind e with
  | JSONDecodeError => mkExn (HTTPException 400) ("Invalid JSON format: " ++ str_exn e)
  | YAMLError => mkExn (HTTPException 400) ("Invalid YAML format: " ++ str_exn e)
  | ParseError => mkExn (HTTPException 400) ("Invalid XML format: " ++ str_exn e)
  | _ => mkExn (HTTPException 500) ("Comparison failed: " ++ str_exn e)
  end.

Definition compare_files (request : CompareRequest) : result comparison :=
  try_except (dispatch request) (fun e => Raise (classify e)).

End Comparators.

(* ===================================================================== *)
(** ** Well-formed values and sample documents *)
(* ===================================================================== *)

Fixpoint distinct (keys : list string) : bool :=
  match keys with
  | [] => true
  | k :: rest => negb (PyStr.mem k rest) && distinct rest
  end.

(** A Python dictionary holds each key once; [well_formed] says so of every
    dictionary inside a value. *)
Fixpoint well_formed (v : value) : bool :=
  match v with
  | VList items => forallb well_formed items
  | VDict entries =>
      distinct (map fst entries) &&
      forallb (fun kv : string * value => well_formed (snd kv)) entries
  | _ => true
  end.

(** A parser known on finitely many documents: the table lists what the
    parser returns on each of them, any other text raises [kind]. *)
Fixpoint loads_from {A : Type} (kind : exn_class) (table : list (string * result A))
    (text : string) : result A :=
  match table with
  | [] => Raise (mkExn kind "document not in the table")
  | (doc, parsed) :: rest =>
      if String.eqb text doc then parsed else loads_from kind rest text
  end.

(** [{"key": v, ...}] as JSON text pieces *)
Definition quoted (s : string) : string := PyStr.dq ++ s ++ PyStr.dq.

(* ===================================================================== *)
(** ** Vocabulary of the properties *)
(* ===================================================================== *)

(** [part] occurs in [line]: some text before, [part], some text after. *)
Definition occurs (part line : string) : Prop :=
  exists before after, line = before ++ part ++ after.

(** Some record of kind [kind] has a dot-separated piece of its path
    occurring in [line]. *)
Definition fragment_hit (kind : change_kind) (changes : list change) (line : string) : Prop :=
  exists c part,
    In c changes /\ change_type c = kind /\
    In part (PyStr.split PyStr.dot (path c)) /\ occurs part line.

(** Some path of the section occurs in [line], whole. *)
Definition path_hit {A : Type} (s : section A) (line : string) : Prop :=
  exists p, In p (keys s) /\ occurs p line.

(** [out] is [line] behind the marker chosen by two tests tried in order. *)
Definition chosen (first second : Prop) (m1 m2 : string) (out line : string) : Prop :=
  (first /\ out = m1 ++ line) \/
  (~ first /\ second /\ out = m2 ++ line) \/
  (~ first /\ ~ second /\ out = "  " ++ line).

Definition markers : list string := ["  "; "- "; "~ "; "+ "].

(** [out] is [line] behind one of the four two-character markers. *)
Definition marked (out line : string) : Prop :=
  exists m, In m markers /\ out = m ++ line.


(** The entries an element contributes under [key], in document order: its
    hoisted text when [key] is the reserved key, then one dictionary per
    child carrying that tag. *)
Definition entries_for (key : string) (e : element) : list value :=
  (match PyDict.get key (hoist_text (text_of e)) with
   | Some hoisted => [hoisted]
   | None => []
   end ++
   map xml_to_dict (filter (fun child => String.eqb (tag_of child) key) (children_of e)))%list.

(** No entry: the key is absent; one entry: the entry itself; two or more:
    the sequence of the entries. *)
Definition pack (entries : list value) : option value :=
  match entries with
  | [] => None
  | [single] => Some single
  | _ => Some (VList entries)
  end.

Definition is_list (v : value) : bool :=
  match v with VList _ => true | _ => false end.

(** The documents of the repeated-tag scenario and their element trees. *)
Definition one_item_xml : string := "<root><item>1</item></root>".
Definition two_items_xml : string := "<root><item>1</item><item>2</item></root>".
Definition one_item_root : element :=
  Element "root" None [Element "item" (Some "1") []].
Definition two_items_root : element :=
  Element "root" None [Element "item" (Some "1") []; Element "item" (Some "2") []].

(** The empty summary. *)
Definition no_changes : summary_t := mkSummary 0 0 0.

(** The name a comparator puts in front of a failure, by format. *)
Definition comparator_label (file_format : string) : string :=
  if String.eqb file_format "json" then "JSON"
  else if String.eqb file_format "yaml" then "YAML"
  else "XML".

(** The marking rule of the line annotator in the words of the
    specification, over the change records of any format: a source line is
    marked [-] if a piece of some deletion's path occurs in it, else [~] if
    a piece of some modification's path does, else left unmarked. [pieces]
    splits a path on its separator. *)
Definition specified_source_line (pieces : string -> list string)
    (changes : list change) (line : string) : string :=
  if existsb (fun c => change_kind_eqb (change_type c) deletion &&
                       existsb (PyStr.contains line) (pieces (path c)))
             changes
  then "- " ++ line
  else if existsb (fun c => change_kind_eqb (change_type c) modification &&
                            existsb (PyStr.contains line) (pieces (path c)))
                  changes
  then "~ " ++ line
  else "  " ++ line.

(** Two JSON documents whose only difference sits under a key with a dot in
    its name, next to a string that repeats the end of that key's path. *)
Definition dotted_source : string :=
  "{" ++ quoted "a.b" ++ ": 1, " ++ quoted "k" ++ ": " ++ quoted "b']" ++ "}".
Definition dotted_target : string :=
  "{" ++ quoted "a.b" ++ ": 2, " ++ quoted "k" ++ ": " ++ quoted "b']" ++ "}".
Definition dotted_documents : list (string * result value) :=
  [ (dotted_source, Ok (VDict [("a.b", VInt 1); ("k", VStr "b']")]));
    (dotted_target, Ok (VDict [("a.b", VInt 2); ("k", VStr "b']")])) ].

(** The first scenario of the specification, as JSON and as YAML. *)
Definition scenario1_source : string :=
  "{" ++ quoted "a" ++ ":1," ++ quoted "b" ++ ":2}".
Definition scenario1_target : string :=
  "{" ++ quoted "a" ++ ":1," ++ quoted "b" ++ ":3," ++ quoted "c" ++ ":4}".
Definition scenario1_source_data : value := VDict [("a", VInt 1); ("b", VInt 2)].
Definition scenario1_target_data : value :=
  VDict [("a", VInt 1); ("b", VInt 3); ("c", VInt 4)].
Definition scenario1_documents : list (string * result value) :=
  [ (scenario1_source, Ok scenario1_source_data);
    (scenario1_target, Ok scenario1_target_data) ].

Definition yaml_two_keys : string := "a: 1" ++ String PyStr.newline "b: 2".
Definition yaml_documents : list (string * result value) :=
  [ (yaml_two_keys, Ok scenario1_source_data) ].

Definition xml_documents : list (string * result element) :=
  [ (one_item_xml, Ok one_item_root); (two_items_xml, Ok two_items_root) ].

(** The malformed document of the specification and what [json.loads]
    answers on it. *)
Definition malformed_json : string := "{" ++ quoted "a" ++ ":}".
Definition malformed_documents : list (string * result value) :=
  [ (malformed_json,
     Raise (mkExn JSONDecodeError "Expecting value: line 1 column 6 (char 5)"));
    (scenario1_target, Ok scenario1_target_data) ].
Definition malformed_request : CompareRequest :=
  mkRequest malformed_json scenario1_target "json" None (Some true).

(** A list that grows by one item. *)
Definition grown_source : string := "{" ++ quoted "a" ++ ":[1]}".
Definition grown_target : string := "{" ++ quoted "a" ++ ":[1,2]}".
Definition grown_source_data : value := VDict [("a", VList [VInt 1])].
Definition grown_target_data : value := VDict [("a", VList [VInt 1; VInt 2])].
Definition grown_documents : list (string * result value) :=
  [ (grown_source, Ok grown_source_data); (grown_target, Ok grown_target_data) ].

(** A key to ignore, one level down. *)
Definition nested_source : string :=
  "{" ++ quoted "a" ++ ":{" ++ quoted "secret" ++ ":" ++ quoted "x" ++ "}}".
Definition nested_target : string :=
  "{" ++ quoted "a" ++ ":{" ++ quoted "secret" ++ ":" ++ quoted "y" ++ "}}".
Definition nested_source_data : value := VDict [("a", VDict [("secret", VStr "x")])].
Definition nested_target_data : value := VDict [("a", VDict [("secret", VStr "y")])].
Definition nested_documents : list (string * result value) :=
  [ (nested_source, Ok nested_source_data); (nested_target, Ok nested_target_data) ].

(** A list and its reversal under one key, and the same as repeated XML
    children. *)
Definition ascending (key : string) : value := VDict [(key, VList [VInt 1; VInt 2; VInt 3])].
Definition descending (key : string) : value := VDict [(key, VList [VInt 3; VInt 2; VInt 1])].
Definition reversed_source : string := "{" ++ quoted "a" ++ ":[1,2,3]}".
Definition reversed_target : string := "{" ++ quoted "a" ++ ":[3,2,1]}".
Definition reversed_documents : list (string * result value) :=
  [ (reversed_source, Ok (ascending "a")); (reversed_target, Ok (descending "a")) ].
Definition reversed_yaml_source : string := "a: [1, 2, 3]".
Definition reversed_yaml_target : string := "a: [3, 2, 1]".
Definition reversed_yaml_documents : list (string * result value) :=
  [ (reversed_yaml_source, Ok (ascending "a")); (reversed_yaml_target, Ok (descending "a")) ].

Definition item (text : string) : element := Element "item" (Some text) [].
Definition ascending_xml : string :=
  "<root><item>1</item><item>2</item><item>3</item></root>".
Definition descending_xml : string :=
  "<root><item>3</item><item>2</item><item>1</item></root>".
Definition ascending_root : element := Element "root" None [item "1"; item "2"; item "3"].
Definition descending_root : element := Element "root" None [item "3"; item "2"; item "1"].
Definition reversed_xml_documents : list (string * result element) :=
  [ (ascending_xml, Ok ascending_root); (descending_xml, Ok descending_root) ].
Definition texts (ts : list string) : value := VList (map (fun t => VDict [("text", VStr t)]) ts).

(** An integer against the float of the same value. *)
Definition integer_source : string := "{" ++ quoted "a" ++ ":1}".
Definition float_target : string := "{" ++ quoted "a" ++ ":1.0}".
Definition numeric_documents : list (string * result value) :=
  [ (integer_source, Ok (VDict [("a", VInt 1)]));
    (float_target, Ok (VDict [("a", VFloat (inject_Z 1))])) ].
Definition numeric_yaml_documents : list (string * result value) :=
  [ ("a: 1", Ok (VDict [("a", VInt 1)]));
    ("a: 1.0", Ok (VDict [("a", VFloat (inject_Z 1))])) ].

(* ===================================================================== *)
(** ** Induction on values and on elements *)
(* ===================================================================== *)

Unset Implicit Arguments.

Section ValueInduction.
Variable P : value -> Prop.
Hypothesis HNone : P VNone.
Hypothesis HBool : forall b, P (VBool b).
Hypothesis HInt : forall z, P (VInt z).
Hypothesis HFloat : forall q, P (VFloat q).
Hypothesis HStr : forall s, P (VStr s).
Hypothesis HList : forall items, Forall P items -> P (VList items).
Hypothesis HDict :
  forall entries, Forall (fun kv : string * value => P (snd kv)) entries ->
                  P (VDict entries).

Fixpoint value_rect' (v : value) : P v :=
  match v with
  | VNone => HNone
  | VBool b => HBool b
  | VInt z => HInt z
  | VFloat q => HFloat q
  | VStr s => HStr s
  | VList items =>
      HList items ((fix all (l : list value) : Forall P l :=
                match l with
                | [] => Forall_nil P
                | x :: l' => Forall_cons x (value_rect' x) (all l')
                end) items)
  | VDict entries =>
      HDict entries ((fix all (l : list (string * value))
                : Forall (fun kv : string * value => P (snd kv)) l :=
                match l with
                | [] => Forall_nil _
                | kv :: l' => Forall_cons kv (value_rect' (snd kv)) (all l')
                end) entries)
  end.
End ValueInduction.

Section ElementInduction.
Variable P : element -> Prop.
Hypothesis HElement :
  forall tag text children, Forall P children -> P (Element tag text children).

Fixpoint element_rect' (e : element) : P e :=
  match e with
  | Element tag text children =>
      HElement tag text children
        ((fix all (l : list element) : Forall P l :=
            match l with
            | [] => Forall_nil P
            | c :: l' => Forall_cons c (element_rect' c) (all l')
            end) children)
  end.
End ElementInduction.


(* ===================================================================== *)
(** ** Vocabulary of the further properties *)
(* ===================================================================== *)

(** The request as [compare_files] reads it: contents stripped, format in
    lower case. *)
Definition normalised (request : CompareRequest) : CompareRequest :=
  mkRequest (PyStr.strip (request_source_content request))
            (PyStr.strip (request_target_content request))
            (PyStr.lower (request_format request))
            (request_ignore_keys request)
            (request_strict request).

(** The string behind its first character, when that is white space. *)
Definition take_space (s : string) : option string :=
  match s with
  | EmptyString => None
  | String a s1 =>
      if PyStr.ascii_space a then Some s1
      else
        match s1 with
        | EmptyString => None
        | String b s2 =>
            if PyStr.two_byte_space a b then Some s2
            else
              match s2 with
              | EmptyString => None
              | String c s3 => if PyStr.three_byte_space a b c then Some s3 else None
              end
        end
  end.

(** A string of white space characters only (the empty string included). *)
Inductive blank : string -> Prop :=
| blank_empty : blank EmptyString
| blank_one (a : ascii) (w : string) :
    PyStr.ascii_space a = true -> blank w -> blank (String a w)
| blank_two (a b : ascii) (w : string) :
    PyStr.two_byte_space a b = true -> blank w -> blank (String a (String b w))
| blank_three (a b c : ascii) (w : string) :
    PyStr.three_byte_space a b c = true -> blank w ->
    blank (String a (String b (String c w))).

(** No white space in front, no white space at the end. *)
Definition no_space_in_front (s : string) : Prop :=
  forall w rest, s = w ++ rest -> blank w -> w = EmptyString.
Definition no_space_at_the_end (s : string) : Prop :=
  forall rest w, s = rest ++ w -> blank w -> w = EmptyString.

(** A no-break space, U+00A0. *)
Definition no_break_space : string :=
  String (ascii_of_nat 194) (String (ascii_of_nat 160) EmptyString).

(** A request in a format the handler does not know. *)
Definition toml_request : CompareRequest :=
  mkRequest "a = 1" "a = 2" "toml" None (Some true).

Definition is_dict (v : value) : bool :=
  match v with VDict _ => true | _ => false end.

(** The fields a record carries, by kind: an addition only the new value, a
    deletion only the old one, a modification both. *)
Definition well_shaped (c : change) : Prop :=
  match change_type c with
  | addition => old_value c = None /\ new_value c <> None
  | deletion => old_value c <> None /\ new_value c = None
  | modification => old_value c <> None /\ new_value c <> None
  end.

(** Two element trees that differ at every depth, and a key to ignore. *)
Definition server_old : element :=
  Element "config" None
    [Element "server" None [Element "port" (Some "80") []; Element "host" (Some "a") []];
     Element "debug" (Some "on") []].
Definition server_new : element :=
  Element "config" None
    [Element "server" None [Element "port" (Some "8080") []; Element "tls" (Some "yes") []];
     Element "owner" (Some "ops") []].
Definition server_old_dict : pydict := as_dict (xml_to_dict server_old).
Definition server_new_dict : pydict := as_dict (xml_to_dict server_new).
Definition host_deleted : change :=
  mkChange "root.server.host" deletion (Some (VDict [("text", VStr "a")])) None.
Definition port_modified : change :=
  mkChange "root.server.port.text" modification (Some (VStr "80")) (Some (VStr "8080")).



(** The record written for a key of the target that the source lacks, and
    for a key of the source that the target lacks. *)
Definition added_at (path0 : string) (kv : string * value) : change :=
  mkChange (path0 ++ "." ++ fst kv) addition None (Some (snd kv)).
Definition deleted_at (path0 : string) (kv : string * value) : change :=
  mkChange (path0 ++ "." ++ fst kv) deletion (Some (snd kv)) None.

(** The entries whose key is not in [ignore_keys], in order. *)
Definition kept (ignore_keys : list string) (d : pydict) : pydict :=
  filter (fun kv : string * value => negb (PyStr.mem (fst kv) ignore_keys)) d.

(** The DeepDiff report of one changed value, with no path excluded, and
    the record written for it. *)
Definition port_report : report :=
  render (diff_level (fun _ => false) false
            (VDict [("port", VStr "80")]) (VDict [("port", VStr "8080")]) "root").
Definition port_changed : change :=
  mkChange "root['port']" modification (Some (VStr "80")) (Some (VStr "8080")).

(** The same record seen from the other side: additions and deletions
    trade places, old and new value are swapped. *)
Definition mirror (c : change) : change :=
  mkChange (path c)
           match change_type c with
           | addition => deletion
           | deletion => addition
           | modification => modification
           end
           (new_value c) (old_value c).

(** The tags of [tags] in the order they first occur, skipping those
    already in [seen]. *)
Fixpoint first_seen (seen tags : list string) : list string :=
  match tags with
  | [] => []
  | t :: rest =>
      if PyStr.mem t seen then first_seen seen rest
      else t :: first_seen (seen ++ [t])%list rest
  end.

(** The child elements that carry the tag [text]. *)
Definition text_children (children : list element) : list element :=
  filter (fun child => String.eqb (tag_of child) "text") children.

(** Text between a space and a no-break space, in an element with a child
    that is itself tagged [text]. *)
Definition note_text : string := " hello " ++ no_break_space.
Definition note_element : element :=
  Element "note" (Some note_text) [Element "text" (Some "x") []; Element "b" None []].

(** [out[2:]]: an annotated line without its marker. *)
Definition unmarked (out : string) : string :=
  match out with
  | String _ (String _ rest) => rest
  | _ => EmptyString
  end.

(** ["\n".join(lines)] *)
Definition join_lines (lines : list string) : string :=
  String.concat (String PyStr.newline EmptyString) lines.

(** Every line behind the marker of an unchanged line. *)
Definition all_unmarked (text : string) : list string :=
  map (fun line => "  " ++ line) (PyStr.split PyStr.newline text).

(** The same content under two differently named roots. *)
Definition renamed_root_documents : list (string * result element) :=
  [ ("<settings><item>1</item></settings>", Ok (Element "settings" None [item "1"]));
    ("<options><item>1</item></options>", Ok (Element "options" None [item "1"])) ].

(** Two children in either order. *)
Definition swapped_documents : list (string * result element) :=
  [ ("<r><a>1</a><b>2</b></r>",
     Ok (Element "r" None [Element "a" (Some "1") []; Element "b" (Some "2") []]));
    ("<r><b>2</b><a>1</a></r>",
     Ok (Element "r" None [Element "b" (Some "2") []; Element "a" (Some "1") []])) ].

(* ===================================================================== *)
(** ** Strings: substrings and splitting *)
(* ===================================================================== *)

Lemma startswith_spec (s p : string) :
  PyStr.startswith s p = true <-> exists rest, s = p ++ rest.
Proof.
  revert s; induction p as [|a p IH]; intros s; simpl.
  - split; [intros _; exists s; reflexivity | reflexivity].
  - destruct s as [|b s]; simpl.
    + split; [discriminate | intros [rest H]; discriminate].
    + rewrite andb_true_iff, IH. split.
      * intros [Hab [rest ->]]. apply Ascii.eqb_eq in Hab. subst. now exists rest.
      * intros [rest H]. injection H as -> ->. split; [apply Ascii.eqb_refl | now exists rest].
Qed.

Lemma contains_occurs (line part : string) :
  PyStr.contains line part = true <-> occurs part line.
Proof.
  unfold occurs. induction line as [|c line IH].
  - simpl. rewrite orb_false_r, startswith_spec. split.
    + intros [rest H]. exists EmptyString, rest. exact H.
    + intros [before [after H]]. destruct before; simpl in H.
      * now exists after.
      * discriminate.
  - cbn [PyStr.contains]. rewrite orb_true_iff, startswith_spec, IH. split.
    + intros [[rest H] | [before [after H]]].
      * exists EmptyString, rest. exact H.
      * exists (String c before), after. simpl. now rewrite H.
    + intros [before [after H]]. destruct before as [|b before]; simpl in H.
      * left. now exists after.
      * right. injection H as _ H. now exists before, after.
Qed.

Lemma split_not_nil (sep : ascii) (s : string) : PyStr.split sep s <> [].
Proof.
  destruct s as [|c s]; simpl; [discriminate|].
  destruct (Ascii.eqb c sep); [discriminate|].
  destruct (PyStr.split sep s); discriminate.
Qed.

Lemma mem_In (key : string) (keys : list string) :
  PyStr.mem key keys = true <-> In key keys.
Proof.
  unfold PyStr.mem. rewrite existsb_exists. split.
  - intros [k [Hin Heq]]. apply String.eqb_eq in Heq. now subst.
  - intros Hin. exists key. split; [exact Hin | apply String.eqb_refl].
Qed.

Lemma mem_not_In (key : string) (keys : list string) :
  PyStr.mem key keys = false <-> ~ In key keys.
Proof.
  rewrite <- mem_In. destruct (PyStr.mem key keys); split; congruence.
Qed.

(* ===================================================================== *)
(** ** The line annotators *)
(* ===================================================================== *)

Lemma change_kind_eqb_eq (a b : change_kind) : change_kind_eqb a b = true <-> a = b.
Proof. destruct a, b; simpl; split; congruence. Qed.

Lemma Forall2_map_self {A B : Type} (R : B -> A -> Prop) (f : A -> B) (l : list A) :
  (forall a, R (f a) a) -> Forall2 R (map f l) l.
Proof. intros H. induction l; simpl; constructor; auto. Qed.

Lemma has_change_spec (kind : change_kind) (changes : list change) (line : string) :
  has_change kind changes line = true <-> fragment_hit kind changes line.
Proof.
  unfold has_change, fragment_hit. rewrite existsb_exists. split.
  - intros [c [Hin H]]. apply andb_true_iff in H as [Hk Hp].
    apply change_kind_eqb_eq in Hk. apply existsb_exists in Hp as [part [Hpart Hocc]].
    exists c, part. rewrite <- contains_occurs. auto.
  - intros [c [part [Hin [Hk [Hpart Hocc]]]]]. exists c. split; [exact Hin|].
    apply andb_true_iff. split; [now apply change_kind_eqb_eq|].
    apply existsb_exists. exists part. now rewrite contains_occurs.
Qed.

Lemma any_key_in_spec {A : Type} (s : section A) (line : string) :
  any_key_in s line = true <-> path_hit s line.
Proof.
  unfold any_key_in, path_hit. rewrite existsb_exists.
  split; intros [p [Hin H]]; exists p; split; auto; now apply contains_occurs.
Qed.

Lemma chosen_by_tests (t1 t2 : bool) (first second : Prop) (m1 m2 line : string) :
  (t1 = true <-> first) -> (t2 = true <-> second) ->
  chosen first second m1 m2
         (if t1 then m1 ++ line else if t2 then m2 ++ line else "  " ++ line) line.
Proof.
  intros H1 H2. unfold chosen. destruct t1.
  - left. split; [now apply H1 | reflexivity].
  - right. assert (~ first) by (intros F; apply H1 in F; discriminate).
    destruct t2.
    + left. repeat split; auto. now apply H2.
    + right. repeat split; auto. intros F; apply H2 in F; discriminate.
Qed.

Lemma chosen_marked (first second : Prop) (m1 m2 out line : string) :
  In m1 markers -> In m2 markers -> chosen first second m1 m2 out line -> marked out line.
Proof.
  intros I1 I2 [[_ ->] | [[_ [_ ->]] | [_ [_ ->]]]].
  - now exists m1.
  - now exists m2.
  - exists "  ". split; [now left | reflexivity].
Qed.

Lemma xml_source_line_chosen (changes : list change) (line : string) :
  chosen (fragment_hit deletion changes line) (fragment_hit modification changes line)
         "- " "~ " (xml_source_line changes line) line.
Proof. apply chosen_by_tests; apply has_change_spec. Qed.

Lemma xml_target_line_chosen (changes : list change) (line : string) :
  chosen (fragment_hit addition changes line) (fragment_hit modification changes line)
         "+ " "~ " (xml_target_line changes line) line.
Proof. apply chosen_by_tests; apply has_change_spec. Qed.

Lemma json_source_line_chosen (d : report) (line : string) :
  chosen (path_hit (dictionary_item_removed d) line) (path_hit (values_changed d) line)
         "- " "~ " (json_source_line d line) line.
Proof. apply chosen_by_tests; apply any_key_in_spec. Qed.

Lemma json_target_line_chosen (d : report) (line : string) :
  chosen (path_hit (dictionary_item_added d) line) (path_hit (values_changed d) line)
         "+ " "~ " (json_target_line d line) line.
Proof. apply chosen_by_tests; apply any_key_in_spec. Qed.

Lemma yaml_source_line_chosen (d : report) (line : string) :
  chosen (path_hit (dictionary_item_removed d) line) (path_hit (values_changed d) line)
         "- " "~ " (yaml_source_line d line) line.
Proof. apply chosen_by_tests; apply any_key_in_spec. Qed.

Lemma yaml_target_line_chosen (d : report) (line : string) :
  chosen (path_hit (dictionary_item_added d) line) (path_hit (values_changed d) line)
         "+ " "~ " (yaml_target_line d line) line.
Proof. apply chosen_by_tests; apply any_key_in_spec. Qed.

Lemma minus_marker : In "- " markers. Proof. simpl; auto. Qed.
Lemma tilde_marker : In "~ " markers. Proof. simpl; auto. Qed.
Lemma plus_marker : In "+ " markers. Proof. simpl; auto 6. Qed.

Create HintDb markers.
#[local] Hint Resolve minus_marker tilde_marker plus_marker : markers.

(* ===================================================================== *)
(** ** Dictionaries and [==] *)
(* ===================================================================== *)

Lemma get_In (d : pydict) (k : string) (v : value) :
  PyDict.get k d = Some v -> In (k, v) d.
Proof.
  induction d as [|[k0 v0] d IH]; simpl; [discriminate|].
  destruct (String.eqb k k0) eqn:E.
  - apply String.eqb_eq in E. intros [= ->]. subst. now left.
  - intros H. right. auto.
Qed.

Lemma get_None (d : pydict) (k : string) :
  PyDict.get k d = None <-> ~ In k (map fst d).
Proof.
  induction d as [|[k0 v0] d IH]; simpl.
  - tauto.
  - destruct (String.eqb k k0) eqn:E.
    + apply String.eqb_eq in E. subst. split; [discriminate | tauto].
    + apply String.eqb_neq in E. rewrite IH. split; [intros H [F|F]; auto | tauto].
Qed.

Lemma dict_mem_In (d : pydict) (k : string) :
  PyDict.mem k d = true <-> In k (map fst d).
Proof.
  unfold PyDict.mem. destruct (PyDict.get k d) eqn:E.
  - split; [intros _ | reflexivity]. apply get_In in E.
    apply in_map_iff. now exists (k, v).
  - apply get_None in E. split; [discriminate | tauto].
Qed.

Lemma get_of_distinct (d : pydict) (k : string) (v : value) :
  distinct (map fst d) = true -> In (k, v) d -> PyDict.get k d = Some v.
Proof.
  induction d as [|[k0 v0] d IH]; simpl; [tauto|].
  intros Hd [Hin | Hin]; apply andb_true_iff in Hd as [Hk Hd].
  - injection Hin as -> ->. now rewrite String.eqb_refl.
  - destruct (String.eqb k k0) eqn:E; [|auto].
    apply String.eqb_eq in E. subst k0.
    apply negb_true_iff, mem_not_In in Hk. exfalso. apply Hk.
    apply in_map_iff. now exists (k, v).
Qed.

Lemma well_formed_dict (d : pydict) :
  well_formed (VDict d) = true <->
  distinct (map fst d) = true /\ Forall (fun kv => well_formed (snd kv) = true) d.
Proof. simpl. now rewrite andb_true_iff, forallb_forall, Forall_forall. Qed.

Lemma well_formed_list (items : list value) :
  well_formed (VList items) = true <-> Forall (fun x => well_formed x = true) items.
Proof. simpl. now rewrite forallb_forall, Forall_forall. Qed.

Lemma Qeq_bool_same (q : Q) : Qeq_bool q q = true.
Proof. apply Qeq_bool_iff. reflexivity. Qed.

Lemma all2_same {A : Type} (same : A -> A -> bool) (l : list A) :
  Forall (fun x => same x x = true) l -> all2 same l l = true.
Proof. induction 1; simpl; [reflexivity|]. now apply andb_true_iff. Qed.

(** On values whose dictionaries hold each key once, [==] is reflexive. *)
Lemma py_eq_refl (v : value) : well_formed v = true -> py_eq v v = true.
Proof.
  induction v as [ |b|z|q|s|items IH|entries IH] using value_rect'; intros Hwf;
    try reflexivity.
  - simpl. destruct b; reflexivity.
  - simpl. apply Qeq_bool_same.
  - simpl. apply Qeq_bool_same.
  - simpl. apply String.eqb_refl.
  - simpl. apply all2_same. apply well_formed_list in Hwf.
    rewrite Forall_forall in *. auto.
  - apply well_formed_dict in Hwf as [Hd Hall]. simpl.
    rewrite Nat.eqb_refl. simpl. apply forallb_forall. intros [k v] Hin.
    simpl. rewrite (get_of_distinct _ _ _ Hd Hin).
    rewrite Forall_forall in *. apply (IH _ Hin). apply (Hall _ Hin).
Qed.

Lemma flat_map_nil {A B : Type} (f : A -> list B) (l : list A) :
  (forall a, In a l -> f a = []) -> flat_map f l = [].
Proof.
  induction l; simpl; intros H; [reflexivity|].
  rewrite H by now left. simpl. apply IHl. intros; apply H; now right.
Qed.

(** A dictionary compared with itself yields no change, whatever the keys
    to ignore. *)
Lemma compare_xml_dicts_same (d : pydict) (ignore_keys : list string) (path0 : string) :
  well_formed (VDict d) = true -> compare_xml_dicts d d ignore_keys path0 = [].
Proof.
  intros Hwf. apply well_formed_dict in Hwf as [Hd Hall].
  unfold compare_xml_dicts. cbn [compare_xml_values].
  rewrite !flat_map_nil; [reflexivity | |].
  - intros [k v] Hin. cbn [fst snd]. destruct (PyStr.mem k ignore_keys); [reflexivity|].
    replace (PyDict.mem k d) with true; [reflexivity|].
    symmetry. apply dict_mem_In. apply in_map_iff. now exists (k, v).
  - intros [k v] Hin. cbn [fst snd]. destruct (PyStr.mem k ignore_keys); [reflexivity|].
    rewrite (get_of_distinct _ _ _ Hd Hin).
    rewrite py_eq_refl; [reflexivity|]. rewrite Forall_forall in Hall. apply (Hall _ Hin).
Qed.

(* ===================================================================== *)
(** ** The XML adapter *)
(* ===================================================================== *)


Lemma get_set_same (d : pydict) (k : string) (v : value) :
  PyDict.get k (PyDict.set k v d) = Some v.
Proof.
  induction d as [|[k0 v0] d IH]; simpl.
  - now rewrite String.eqb_refl.
  - destruct (String.eqb k k0) eqn:E; simpl; rewrite E; auto.
Qed.

Lemma get_set_other (d : pydict) (k k' : string) (v : value) :
  k' <> k -> PyDict.get k' (PyDict.set k v d) = PyDict.get k' d.
Proof.
  intros Hne. induction d as [|[k0 v0] d IH]; simpl.
  - apply String.eqb_neq in Hne. now rewrite Hne.
  - destruct (String.eqb k k0) eqn:E; simpl.
    + apply String.eqb_eq in E. subst k0.
      apply String.eqb_neq in Hne. now rewrite Hne.
    + now rewrite IH.
Qed.

Lemma set_keys (d : pydict) (k : string) (v : value) :
  map fst (PyDict.set k v d) =
  if PyDict.mem k d then map fst d else (map fst d ++ [k])%list.
Proof.
  unfold PyDict.mem. induction d as [|[k0 v0] d IH]; simpl; [reflexivity|].
  destruct (String.eqb k k0) eqn:E; simpl; [reflexivity|].
  rewrite IH. now destruct (PyDict.get k d).
Qed.

Lemma distinct_snoc (l : list string) (k : string) :
  distinct l = true -> ~ In k l -> distinct (l ++ [k]) = true.
Proof.
  induction l as [|a l IH]; simpl; intros Hd Hk; [reflexivity|].
  apply andb_true_iff in Hd as [Ha Hd]. apply andb_true_iff. split.
  - apply negb_true_iff, mem_not_In. apply negb_true_iff, mem_not_In in Ha.
    rewrite in_app_iff. simpl. intuition congruence.
  - apply IH; tauto.
Qed.

Lemma set_In (d : pydict) (k : string) (v : value) (kv : string * value) :
  In kv (PyDict.set k v d) -> kv = (k, v) \/ In kv d.
Proof.
  induction d as [|[k0 v0] d IH]; simpl.
  - intros [H|[]]; auto.
  - destruct (String.eqb k k0) eqn:E; simpl.
    + apply String.eqb_eq in E. subst k0. intros [H|H]; auto.
    + intros [H|H]; auto. destruct (IH H); auto.
Qed.

Lemma well_formed_set (d : pydict) (k : string) (v : value) :
  well_formed (VDict d) = true -> well_formed v = true ->
  well_formed (VDict (PyDict.set k v d)) = true.
Proof.
  rewrite !well_formed_dict, !Forall_forall. intros [Hd Hall] Hv. split.
  - rewrite set_keys. destruct (PyDict.mem k d) eqn:E; [exact Hd|].
    apply distinct_snoc; [exact Hd|]. rewrite <- dict_mem_In. congruence.
  - intros kv Hin. apply set_In in Hin as [-> | Hin]; auto.
Qed.

Lemma well_formed_get (d : pydict) (k : string) (v : value) :
  well_formed (VDict d) = true -> PyDict.get k d = Some v -> well_formed v = true.
Proof.
  rewrite well_formed_dict, Forall_forall. intros [_ Hall] Hget.
  apply get_In in Hget. apply (Hall _ Hget).
Qed.

Lemma well_formed_add_child (result : pydict) (child : string * value) :
  well_formed (VDict result) = true -> well_formed (snd child) = true ->
  well_formed (VDict (add_child result child)) = true.
Proof.
  destruct child as [child_tag child_data]. cbn [snd]. intros Hr Hc.
  unfold add_child.
  destruct (PyDict.get child_tag result) as [prior|] eqn:E.
  - pose proof (well_formed_get _ _ _ Hr E) as Hp.
    assert (Hpair : well_formed (VList ([prior] ++ [child_data])) = true).
    { simpl. now rewrite Hp, Hc. }
    destruct prior; try (apply well_formed_set; assumption).
    apply well_formed_set; [assumption|].
    apply well_formed_list. apply well_formed_list in Hp.
    apply Forall_app. split; [exact Hp | now constructor].
  - now apply well_formed_set.
Qed.

Lemma well_formed_hoist_text (text : option string) :
  well_formed (VDict (hoist_text text)) = true.
Proof.
  destruct text as [t|]; [|reflexivity]. unfold hoist_text.
  destruct (PyStr.strip t); reflexivity.
Qed.

Lemma well_formed_fold_add_child (children : list (string * value)) (result : pydict) :
  well_formed (VDict result) = true ->
  Forall (fun child => well_formed (snd child) = true) children ->
  well_formed (VDict (fold_left add_child children result)) = true.
Proof.
  revert result. induction children as [|c cs IH]; simpl; intros result Hr Hc; [exact Hr|].
  inversion Hc; subst. apply IH; [now apply well_formed_add_child | assumption].
Qed.

(** The adapter only builds dictionaries that hold each key once. *)
Lemma xml_to_dict_well_formed (e : element) : well_formed (xml_to_dict e) = true.
Proof.
  induction e as [tag text children IH] using element_rect'.
  cbn [xml_to_dict]. apply well_formed_fold_add_child.
  - apply well_formed_hoist_text.
  - rewrite Forall_map. cbn [snd]. exact IH.
Qed.

Lemma xml_to_dict_is_dict (e : element) : xml_to_dict e = VDict (as_dict (xml_to_dict e)).
Proof. destruct e; reflexivity. Qed.

Lemma pack_snoc (entries : list value) (v : value) :
  Forall (fun x => is_list x = false) entries ->
  match pack entries with
  | Some (VList seen) => Some (VList (seen ++ [v])%list)
  | Some prior => Some (VList ([prior] ++ [v])%list)
  | None => Some v
  end = pack (entries ++ [v]).
Proof.
  intros H. destruct entries as [|a [|b rest]]; simpl; try reflexivity.
  inversion H; subst. destruct a; try discriminate; reflexivity.
Qed.

Lemma get_add_child (result : pydict) (key : string) (child : string * value)
    (entries : list value) :
  Forall (fun x => is_list x = false) entries ->
  PyDict.get key result = pack entries ->
  PyDict.get key (add_child result child) =
  pack (entries ++ (if String.eqb (fst child) key then [snd child] else []))%list.
Proof.
  destruct child as [child_tag child_data]. cbn [fst snd]. intros Hent Hget.
  unfold add_child. destruct (String.eqb child_tag key) eqn:E.
  - apply String.eqb_eq in E. subst child_tag. rewrite <- (pack_snoc _ child_data Hent).
    rewrite Hget. destruct (pack entries) as [[]|]; apply get_set_same.
  - apply String.eqb_neq in E. rewrite app_nil_r, <- Hget.
    destruct (PyDict.get child_tag result) as [[]|]; apply get_set_other; congruence.
Qed.

Lemma get_fold_add_child (children : list (string * value)) (result : pydict)
    (key : string) (entries : list value) :
  Forall (fun x => is_list x = false) entries ->
  Forall (fun child => is_list (snd child) = false) children ->
  PyDict.get key result = pack entries ->
  PyDict.get key (fold_left add_child children result) =
  pack (entries ++ map snd (filter (fun child => String.eqb (fst child) key) children))%list.
Proof.
  revert result entries.
  induction children as [|c cs IH]; simpl; intros result entries He Hc Hget.
  - now rewrite app_nil_r.
  - inversion Hc; subst.
    rewrite (IH (add_child result c)
                (entries ++ (if String.eqb (fst c) key then [snd c] else []))%list).
    + destruct (String.eqb (fst c) key); simpl; [|now rewrite app_nil_r].
      now rewrite <- app_assoc.
    + apply Forall_app. split; [exact He|]. destruct (String.eqb (fst c) key); auto.
    + assumption.
    + now apply get_add_child.
Qed.

(** What the adapter stores under a key: nothing, the single entry, or the
    sequence of all entries in document order. *)
Lemma xml_to_dict_entries (e : element) (key : string) :
  PyDict.get key (as_dict (xml_to_dict e)) = pack (entries_for key e).
Proof.
  destruct e as [tag text children]. cbn [xml_to_dict as_dict].
  unfold entries_for. cbn [text_of children_of].
  rewrite (@get_fold_add_child _ (hoist_text text) key
             (match PyDict.get key (hoist_text text) with Some h => [h] | None => [] end)).
  - f_equal. f_equal. induction children as [|c cs IH]; simpl; [reflexivity|].
    destruct (String.eqb (tag_of c) key); simpl; now rewrite IH.
  - destruct text as [t|]; simpl; [|constructor]. unfold hoist_text.
    destruct (PyStr.strip t); simpl; [constructor|].
    destruct (String.eqb key "text"); repeat constructor.
  - rewrite Forall_map. cbn [snd]. apply Forall_forall. intros c _.
    now rewrite xml_to_dict_is_dict.
  - destruct (PyDict.get key (hoist_text text)); reflexivity.
Qed.

(* ===================================================================== *)
(** ** DeepDiff of a value with itself *)
(* ===================================================================== *)

Lemma merge_all_nothing (ts : list tree) :
  Forall (fun t => t = nothing) ts -> merge_all ts = nothing.
Proof. induction 1; simpl; [reflexivity|]. now subst; rewrite IHForall. Qed.

Lemma same_hash_refl (v : value) : well_formed v = true -> same_hash v v = true.
Proof.
  induction v as [ |b|z|q|s|items IH|entries IH] using value_rect'; intros Hwf; simpl.
  - reflexivity.
  - apply Bool.eqb_reflx.
  - apply Z.eqb_refl.
  - apply Qeq_bool_same.
  - apply String.eqb_refl.
  - apply well_formed_list in Hwf. rewrite Forall_forall in *.
    assert (H : forall x, In x items -> existsb (fun y => same_hash x y) items = true).
    { intros x Hin. apply existsb_exists. exists x. auto. }
    apply andb_true_iff. split; apply forallb_forall; intros x Hin.
    + now apply H.
    + apply existsb_exists. exists x. auto.
  - apply well_formed_dict in Hwf as [Hd Hall]. rewrite Forall_forall in *.
    apply andb_true_iff. split; apply forallb_forall; intros [k v] Hin; cbn [fst snd].
    + apply dict_mem_In. apply in_map_iff. now exists (k, v).
    + rewrite (get_of_distinct _ _ _ Hd Hin). apply (IH _ Hin). apply (Hall _ Hin).
Qed.

Lemma unmatched_nil (others seen mine : list value) (i : nat) :
  (forall x, In x mine -> existsb (same_hash x) others = true) ->
  unmatched others seen mine i = [].
Proof.
  revert seen i. induction mine as [|x rest IH]; simpl; intros seen i H; [reflexivity|].
  rewrite H by now left. simpl. apply IH. intros; apply H; now right.
Qed.

Lemma filter_none {A : Type} (f : A -> bool) (l : list A) :
  (forall a, In a l -> f a = false) -> filter f l = [].
Proof.
  induction l as [|a l IH]; simpl; intros H; [reflexivity|].
  rewrite H by now left. apply IH. intros; apply H; now right.
Qed.

Lemma keys_missing_from_same (d : pydict) : keys_missing_from d d = [].
Proof.
  unfold keys_missing_from. rewrite filter_none; [reflexivity|].
  intros [k v] Hin. cbn [fst]. apply negb_false_iff. apply dict_mem_In. apply in_map_iff. now exists (k, v).
Qed.

Section SameLevels.
Variable skip : string -> bool.
Variable ignore_order : bool.

Lemma pairwise_same (p : string) (l : list value) (i : nat) :
  Forall (fun x => forall q, diff_level skip ignore_order x x q = nothing) l ->
  pairwise (fun x y i => diff_level skip ignore_order x y (index_path p i))
           (fun y i => report_iter_added skip (index_path p i) y)
           (surplus_removed skip p) l l i = nothing.
Proof.
  intros H. revert i. induction H as [|x l Hx Hl IH]; intros i; simpl; [reflexivity|].
  now rewrite Hx, IH.
Qed.

(** Comparing a value with itself finds nothing, at any path, whatever is
    excluded and whether or not order is ignored. *)
Lemma diff_level_same (v : value) (p : string) :
  well_formed v = true -> diff_level skip ignore_order v v p = nothing.
Proof.
  revert p.
  induction v as [ |b|z|q|s|items IH|entries IH] using value_rect'; intros p Hwf;
    cbn [diff_level]; destruct (skip p); try reflexivity.
  - now rewrite Bool.eqb_reflx.
  - now rewrite Z.eqb_refl.
  - now rewrite Qeq_bool_same.
  - now rewrite String.eqb_refl.
  - apply well_formed_list in Hwf. rewrite Forall_forall in *.
    assert (Hu : unmatched items [] items 0 = []).
    { apply unmatched_nil. intros x Hin. apply existsb_exists. exists x.
      split; [exact Hin | apply same_hash_refl; auto]. }
    rewrite Hu, pairwise_same.
    + now destruct ignore_order.
    + apply Forall_forall. intros x Hin q. apply IH; auto.
  - apply well_formed_dict in Hwf as [Hd Hall]. rewrite Forall_forall in *.
    rewrite keys_missing_from_same. simpl.
    rewrite merge_all_nothing; [reflexivity|].
    apply Forall_forall. intros t Ht. apply in_map_iff in Ht as [[k v] [<- Hin]].
    cbn [fst snd]. rewrite (get_of_distinct _ _ _ Hd Hin).
    apply (IH _ Hin). apply (Hall _ Hin).
Qed.
End SameLevels.

(** Completing the excluded paths fails exactly when one of them is empty. *)
Lemma add_root_to_path_ok (path : string) :
  path <> EmptyString -> exists completed, add_root_to_path path = Ok completed.
Proof.
  intros Hne. unfold add_root_to_path.
  destruct (PyStr.startswith path "root"); [eauto|].
  destruct (isdigit path); [eauto|].
  destruct path as [|first rest]; [congruence|].
  destruct (is_digit first); eauto.
Qed.

Lemma add_root_to_paths_ok (paths : list string) :
  ~ In EmptyString paths -> exists excluded, add_root_to_paths paths = Ok excluded.
Proof.
  induction paths as [|path rest IH]; intros Hnot; cbn [add_root_to_paths].
  - eauto.
  - destruct (add_root_to_path_ok path) as [completed ->].
    { intros ->. apply Hnot. now left. }
    destruct IH as [others ->]; [intros Hin; apply Hnot; now right|].
    cbn [bind]. eauto.
Qed.

Lemma add_root_to_paths_empty_entry (paths : list string) :
  In EmptyString paths ->
  add_root_to_paths paths = Raise (mkExn IndexError index_out_of_range).
Proof.
  induction paths as [|path rest IH]; intros Hin; [destruct Hin|].
  cbn [add_root_to_paths].
  destruct (string_dec path EmptyString) as [->|Hne].
  - reflexivity.
  - destruct (add_root_to_path_ok path Hne) as [completed ->]. cbn [bind].
    rewrite IH; [reflexivity|]. destruct Hin as [Heq|Hin]; [congruence|exact Hin].
Qed.

Lemma DeepDiff_empty_entry (x y : value) (ignore_order : bool) (exclude_paths : list string) :
  In EmptyString exclude_paths ->
  DeepDiff x y ignore_order exclude_paths = Raise (mkExn IndexError index_out_of_range).
Proof.
  intros Hin. unfold DeepDiff. now rewrite add_root_to_paths_empty_entry.
Qed.

Lemma DeepDiff_same (v : value) (ignore_order : bool) (exclude_paths : list string) :
  well_formed v = true -> ~ In EmptyString exclude_paths ->
  DeepDiff v v ignore_order exclude_paths = Ok (render nothing).
Proof.
  intros Hwf Hnot. unfold DeepDiff.
  destruct (add_root_to_paths_ok exclude_paths Hnot) as [excluded ->]. cbn [bind].
  now rewrite diff_level_same.
Qed.

Lemma DeepDiff_nothing_excluded (x y : value) (ignore_order : bool) :
  DeepDiff x y ignore_order [] =
  Ok (render (diff_level (fun _ => false) ignore_order x y "root")).
Proof. reflexivity. Qed.

(* ===================================================================== *)
(** ** Running the comparators *)
(* ===================================================================== *)

Section Runs.
Variable json_loads : string -> result value.
Variable yaml_safe_load : string -> result value.
Variable ET_fromstring : string -> result element.

Lemma compare_json_runs (source_content target_content : string)
    (ignore_keys : list string) (strict : bool) (x y : value) (d : report) :
  json_loads source_content = Ok x -> json_loads target_content = Ok y ->
  DeepDiff x y (negb strict) ignore_keys = Ok d ->
  compare_json json_loads source_content target_content ignore_keys strict =
  match detailed_diff d with
  | Ok records =>
      Ok (mkComparison (deepdiff_summary d) records
                       (create_formatted_json_diff source_content target_content d))
  | Raise e => Raise (mkExn PlainException ("JSON comparison failed: " ++ str_exn e))
  end.
Proof.
  intros Hx Hy Hd. unfold compare_json. rewrite Hx, Hy. cbn [bind]. rewrite Hd. cbn [bind].
  destruct (detailed_diff _); reflexivity.
Qed.

Lemma compare_json_empty_entry (source_content target_content : string)
    (ignore_keys : list string) (strict : bool) (x y : value) :
  json_loads source_content = Ok x -> json_loads target_content = Ok y ->
  In EmptyString ignore_keys ->
  compare_json json_loads source_content target_content ignore_keys strict =
  Raise (mkExn PlainException ("JSON comparison failed: " ++ index_out_of_range)).
Proof.
  intros Hx Hy Hin. unfold compare_json. rewrite Hx, Hy. cbn [bind].
  rewrite (DeepDiff_empty_entry x y (negb strict) ignore_keys Hin). reflexivity.
Qed.

Lemma compare_yaml_runs (source_content target_content : string)
    (ignore_keys : list string) (strict : bool) (x y : value) (d : report) :
  yaml_safe_load source_content = Ok x -> yaml_safe_load target_content = Ok y ->
  DeepDiff x y (negb strict) ignore_keys = Ok d ->
  compare_yaml yaml_safe_load source_content target_content ignore_keys strict =
  match detailed_diff d with
  | Ok records =>
      Ok (mkComparison (deepdiff_summary d) records
                       (create_formatted_yaml_diff source_content target_content d))
  | Raise e => Raise (mkExn PlainException ("YAML comparison failed: " ++ str_exn e))
  end.
Proof.
  intros Hx Hy Hd. unfold compare_yaml. rewrite Hx, Hy. cbn [bind]. rewrite Hd. cbn [bind].
  destruct (detailed_diff _); reflexivity.
Qed.

Lemma compare_yaml_empty_entry (source_content target_content : string)
    (ignore_keys : list string) (strict : bool) (x y : value) :
  yaml_safe_load source_content = Ok x -> yaml_safe_load target_content = Ok y ->
  In EmptyString ignore_keys ->
  compare_yaml yaml_safe_load source_content target_content ignore_keys strict =
  Raise (mkExn PlainException ("YAML comparison failed: " ++ index_out_of_range)).
Proof.
  intros Hx Hy Hin. unfold compare_yaml. rewrite Hx, Hy. cbn [bind].
  rewrite (DeepDiff_empty_entry x y (negb strict) ignore_keys Hin). reflexivity.
Qed.

Lemma compare_xml_runs (source_content target_content : string)
    (ignore_keys : list string) (strict : bool) (source_root target_root : element) :
  ET_fromstring source_content = Ok source_root ->
  ET_fromstring target_content = Ok target_root ->
  compare_xml ET_fromstring source_content target_content ignore_keys strict =
  let changes := compare_xml_dicts (as_dict (xml_to_dict source_root))
                                   (as_dict (xml_to_dict target_root))
                                   ignore_keys "root" in
  Ok (mkComparison (summarize changes) changes
                   (create_formatted_xml_diff source_content target_content changes)).
Proof. intros Hs Ht. unfold compare_xml. now rewrite Hs, Ht. Qed.

(** A parser failure on the source leaves every comparator through the
    handler of its [try] block. *)
Lemma compare_json_parse_failure (source_content target_content : string)
    (ignore_keys : list string) (strict : bool) (e : exn) :
  json_loads source_content = Raise e ->
  compare_json json_loads source_content target_content ignore_keys strict =
  Raise (mkExn PlainException ("JSON comparison failed: " ++ str_exn e)).
Proof. intros H. unfold compare_json. now rewrite H. Qed.

Lemma compare_yaml_parse_failure (source_content target_content : string)
    (ignore_keys : list string) (strict : bool) (e : exn) :
  yaml_safe_load source_content = Raise e ->
  compare_yaml yaml_safe_load source_content target_content ignore_keys strict =
  Raise (mkExn PlainException ("YAML comparison failed: " ++ str_exn e)).
Proof. intros H. unfold compare_yaml. now rewrite H. Qed.

Lemma compare_xml_parse_failure (source_content target_content : string)
    (ignore_keys : list string) (strict : bool) (e : exn) :
  ET_fromstring source_content = Raise e ->
  compare_xml ET_fromstring source_content target_content ignore_keys strict =
  Raise (mkExn PlainException ("XML comparison failed: " ++ str_exn e)).
Proof. intros H. unfold compare_xml. now rewrite H. Qed.

End Runs.

Lemma detailed_diff_nothing : detailed_diff (render nothing) = Ok [].
Proof. reflexivity. Qed.

(* ===================================================================== *)
(** ** Properties of the line annotators *)
(* ===================================================================== *)

(** C10 — Each of the three line annotators keeps the lines of both texts:
    the annotated source has one entry per line of the source text (split
    on newline), the annotated target one entry per line of the target
    text, position by position, and every entry is the original line
    behind one of the two-character markers ["  "], ["- "], ["~ "],
    ["+ "]. *)
Theorem annotators_keep_every_line :
  forall (source_content target_content : string) (changes : list change) (d : report),
    let source_lines := PyStr.split PyStr.newline source_content in
    let target_lines := PyStr.split PyStr.newline target_content in
    (Forall2 marked (source (create_formatted_xml_diff source_content target_content changes))
             source_lines /\
     Forall2 marked (target (create_formatted_xml_diff source_content target_content changes))
             target_lines) /\
    (Forall2 marked (source (create_formatted_json_diff source_content target_content d))
             source_lines /\
     Forall2 marked (target (create_formatted_json_diff source_content target_content d))
             target_lines) /\
    (Forall2 marked (source (create_formatted_yaml_diff source_content target_content d))
             source_lines /\
     Forall2 marked (target (create_formatted_yaml_diff source_content target_content d))
             target_lines).
Proof.
  intros source_content target_content changes d source_lines target_lines.
  cbn [create_formatted_xml_diff create_formatted_json_diff create_formatted_yaml_diff
       source target].
  repeat split; apply Forall2_map_self; intros line.
  - eapply chosen_marked; [| |apply xml_source_line_chosen]; auto with markers.
  - eapply chosen_marked; [| |apply xml_target_line_chosen]; auto with markers.
  - eapply chosen_marked; [| |apply json_source_line_chosen]; auto with markers.
  - eapply chosen_marked; [| |apply json_target_line_chosen]; auto with markers.
  - eapply chosen_marked; [| |apply yaml_source_line_chosen]; auto with markers.
  - eapply chosen_marked; [| |apply yaml_target_line_chosen]; auto with markers.
Qed.

(** C9 (what the code does) — The JSON annotator tests whole DeepDiff
    paths against the lines, not their pieces. On two JSON documents that
    differ under the key [a.b], the only record is a modification at
    [root['a.b']]. Split on [.], that path has the piece [b']], which
    occurs in the single source line, so the rule of the specification
    marks the line [~]; and so it does under any other way of splitting
    the path of which some piece occurs in the line (the key [a.b] itself,
    say). The annotator leaves the line unmarked, because the whole path
    does not occur in it. *)
Lemma json_annotator_ignores_path_pieces :
  exists r,
    compare_json (loads_from JSONDecodeError dotted_documents)
                 dotted_source dotted_target [] true = Ok r /\
    diff r = [mkChange "root['a.b']" modification (Some (VInt 1)) (Some (VInt 2))] /\
    source (formatted_diff r) = ["  " ++ dotted_source] /\
    source (formatted_diff r) <>
    map (specified_source_line (PyStr.split PyStr.dot) (diff r))
        (PyStr.split PyStr.newline dotted_source) /\
    forall pieces : string -> list string,
      (exists part, In part (pieces "root['a.b']") /\ occurs part dotted_source) ->
      map (specified_source_line pieces (diff r)) (PyStr.split PyStr.newline dotted_source) =
      ["~ " ++ dotted_source].
Proof.
  exists (mkComparison
            (mkSummary 0 0 1)
            [mkChange "root['a.b']" modification (Some (VInt 1)) (Some (VInt 2))]
            (mkFormatted ["  " ++ dotted_source] ["  " ++ dotted_target])).
  split; [reflexivity|]. split; [reflexivity|]. split; [reflexivity|]. split.
  - vm_compute. discriminate.
  - intros pieces [part [Hin Hocc]].
    assert (H : existsb (PyStr.contains dotted_source) (pieces "root['a.b']") = true).
    { apply existsb_exists. exists part. split; [exact Hin | now apply contains_occurs]. }
    change (PyStr.split PyStr.newline dotted_source) with [dotted_source].
    cbn [diff map]. unfold specified_source_line.
    cbn [existsb change_type path change_kind_eqb andb orb]. now rewrite H.
Qed.

(* ===================================================================== *)
(** ** Properties of the XML adapter *)
(* ===================================================================== *)

(** C8 — In the XML adapter a tag that occurs more than once under one
    parent is stored as the sequence of its entries in document order (the
    first occurrence first), a tag that occurs once as the entry itself;
    and comparing [<root><item>1</item></root>] with
    [<root><item>1</item><item>2</item></root>] yields exactly one
    modification, at [root.item], from the single entry to the sequence of
    two. *)
Theorem repeated_tag_becomes_ordered_sequence :
  forall (ET_fromstring : string -> result element) (strict : bool),
    ET_fromstring one_item_xml = Ok one_item_root ->
    ET_fromstring two_items_xml = Ok two_items_root ->
    (forall (e : element) (key : string),
        PyDict.get key (as_dict (xml_to_dict e)) = pack (entries_for key e)) /\
    exists formatted,
      compare_xml ET_fromstring one_item_xml two_items_xml [] strict =
      Ok (mkComparison
            (mkSummary 0 0 1)
            [mkChange "root.item" modification
                      (Some (VDict [("text", VStr "1")]))
                      (Some (VList [VDict [("text", VStr "1")];
                                    VDict [("text", VStr "2")]]))]
            formatted).
Proof.
  intros ET_fromstring strict H1 H2. split.
  - intros e key. apply xml_to_dict_entries.
  - erewrite compare_xml_runs by eassumption. eexists. reflexivity.
Qed.

Lemma repeated_tag_becomes_ordered_sequence_witness :
  (forall (e : element) (key : string),
      PyDict.get key (as_dict (xml_to_dict e)) = pack (entries_for key e)) /\
  exists formatted,
    compare_xml (loads_from ParseError xml_documents) one_item_xml two_items_xml [] true =
    Ok (mkComparison
          (mkSummary 0 0 1)
          [mkChange "root.item" modification
                    (Some (VDict [("text", VStr "1")]))
                    (Some (VList [VDict [("text", VStr "1")];
                                  VDict [("text", VStr "2")]]))]
          formatted).
Proof.
  apply (repeated_tag_becomes_ordered_sequence (loads_from ParseError xml_documents) true);
    reflexivity.
Defined.

(* ===================================================================== *)
(** ** Comparing a document with itself *)
(* ===================================================================== *)

(** C7 (what the code does) — With an empty string among the keys to
    ignore, the JSON and the YAML comparator fail on every text that
    parses, compared with itself: DeepDiff looks at the first character of
    each entry of [exclude_paths] and raises [IndexError] on the empty one,
    and the comparator passes the failure on as its own plain [Exception].
    No change list and no summary are returned. The XML comparator, which
    tests keys by name, returns the empty change list and the zero summary
    under the same options. *)
Theorem empty_ignore_key_fails_identical_inputs :
  forall (json_loads yaml_safe_load : string -> result value)
         (ET_fromstring : string -> result element)
         (content : string) (ignore_keys : list string) (strict : bool),
    In EmptyString ignore_keys ->
    (forall x, json_loads content = Ok x ->
       compare_json json_loads content content ignore_keys strict =
       Raise (mkExn PlainException
                    "JSON comparison failed: string index out of range")) /\
    (forall x, yaml_safe_load content = Ok x ->
       compare_yaml yaml_safe_load content content ignore_keys strict =
       Raise (mkExn PlainException
                    "YAML comparison failed: string index out of range")) /\
    (forall e, ET_fromstring content = Ok e ->
       exists formatted,
         compare_xml ET_fromstring content content ignore_keys strict =
         Ok (mkComparison no_changes [] formatted)).
Proof.
  intros json_loads yaml_safe_load ET_fromstring content ignore_keys strict Hin.
  split; [|split].
  - intros x Hx. now apply (compare_json_empty_entry json_loads) with (x := x) (y := x).
  - intros x Hx. now apply (compare_yaml_empty_entry yaml_safe_load) with (x := x) (y := x).
  - intros e He. erewrite compare_xml_runs by eassumption. cbn zeta.
    rewrite compare_xml_dicts_same.
    + eexists. reflexivity.
    + rewrite <- xml_to_dict_is_dict. apply xml_to_dict_well_formed.
Qed.

Lemma empty_ignore_key_fails_identical_inputs_witness :
  compare_json (loads_from JSONDecodeError scenario1_documents)
               scenario1_target scenario1_target [EmptyString] true =
  Raise (mkExn PlainException "JSON comparison failed: string index out of range") /\
  compare_yaml (loads_from YAMLError yaml_documents)
               yaml_two_keys yaml_two_keys ["a"; EmptyString] false =
  Raise (mkExn PlainException "YAML comparison failed: string index out of range") /\
  (exists formatted,
      compare_xml (loads_from ParseError xml_documents)
                  two_items_xml two_items_xml [EmptyString] true =
      Ok (mkComparison no_changes [] formatted)).
Proof.
  split; [|split].
  - apply (proj1 (empty_ignore_key_fails_identical_inputs
                    (loads_from JSONDecodeError scenario1_documents)
                    (loads_from YAMLError yaml_documents)
                    (loads_from ParseError xml_documents)
                    scenario1_target [EmptyString] true
                    (or_introl eq_refl)) scenario1_target_data).
    reflexivity.
  - apply (proj1 (proj2 (empty_ignore_key_fails_identical_inputs
                           (loads_from JSONDecodeError scenario1_documents)
                           (loads_from YAMLError yaml_documents)
                           (loads_from ParseError xml_documents)
                           yaml_two_keys ["a"; EmptyString] false
                           (or_intror (or_introl eq_refl)))) scenario1_source_data).
    reflexivity.
  - apply (proj2 (proj2 (empty_ignore_key_fails_identical_inputs
                           (loads_from JSONDecodeError scenario1_documents)
                           (loads_from YAMLError yaml_documents)
                           (loads_from ParseError xml_documents)
                           two_items_xml [EmptyString] true
                           (or_introl eq_refl))) two_items_root).
    reflexivity.
Defined.

(* ===================================================================== *)
(** ** Parse errors *)
(* ===================================================================== *)

(** C1 (what the code does) — When the parser of the declared format
    rejects the source text, the comparator catches the parse exception in
    its own [except Exception] clause and raises a plain [Exception]
    instead; [compare_files] therefore never reaches its clauses for
    [JSONDecodeError], [YAMLError] and [ParseError] and answers with status
    500 and the wording of an internal failure, not with status 400. *)
Theorem malformed_input_becomes_internal_error :
  forall (json_loads yaml_safe_load : string -> result value)
         (ET_fromstring : string -> result element)
         (request : CompareRequest) (message : string),
    let source_content := PyStr.strip (request_source_content request) in
    let file_format := PyStr.lower (request_format request) in
    (file_format = "json" /\
     json_loads source_content = Raise (mkExn JSONDecodeError message)) \/
    (file_format = "yaml" /\
     yaml_safe_load source_content = Raise (mkExn YAMLError message)) \/
    (file_format = "xml" /\
     ET_fromstring source_content = Raise (mkExn ParseError message)) ->
    dispatch json_loads yaml_safe_load ET_fromstring request =
    Raise (mkExn PlainException
                 (comparator_label file_format ++ " comparison failed: " ++ message)) /\
    compare_files json_loads yaml_safe_load ET_fromstring request =
    Raise (mkExn (HTTPException 500)
                 ("Comparison failed: " ++ comparator_label file_format ++
                  " comparison failed: " ++ message)).
Proof.
  intros json_loads yaml_safe_load ET_fromstring request message source_content file_format H.
  assert (Hd : dispatch json_loads yaml_safe_load ET_fromstring request =
               Raise (mkExn PlainException
                            (comparator_label file_format ++ " comparison failed: " ++ message))).
  { unfold dispatch. fold source_content. fold file_format.
    destruct H as [[Hf Hp] | [[Hf Hp] | [Hf Hp]]]; rewrite Hf; simpl.
    - erewrite compare_json_parse_failure by exact Hp. reflexivity.
    - erewrite compare_yaml_parse_failure by exact Hp. reflexivity.
    - erewrite compare_xml_parse_failure by exact Hp. reflexivity. }
  split; [exact Hd|]. unfold compare_files. now rewrite Hd.
Qed.

Lemma malformed_input_becomes_internal_error_witness :
  dispatch (loads_from JSONDecodeError malformed_documents)
           (loads_from YAMLError yaml_documents)
           (loads_from ParseError xml_documents) malformed_request =
  Raise (mkExn PlainException
               "JSON comparison failed: Expecting value: line 1 column 6 (char 5)") /\
  compare_files (loads_from JSONDecodeError malformed_documents)
                (loads_from YAMLError yaml_documents)
                (loads_from ParseError xml_documents) malformed_request =
  Raise (mkExn (HTTPException 500)
               "Comparison failed: JSON comparison failed: Expecting value: line 1 column 6 (char 5)").
Proof.
  apply (malformed_input_becomes_internal_error
           (loads_from JSONDecodeError malformed_documents)
           (loads_from YAMLError yaml_documents)
           (loads_from ParseError xml_documents)
           malformed_request "Expecting value: line 1 column 6 (char 5)").
  left. split; reflexivity.
Defined.

(* ===================================================================== *)
(** ** DeepDiff of two one-key dictionaries *)
(* ===================================================================== *)

Lemma merge_nothing_l (t : tree) : merge nothing t = t.
Proof. destruct t; reflexivity. Qed.

Lemma merge_nothing_r (t : tree) : merge t nothing = t.
Proof. destruct t; unfold merge; simpl. now rewrite !app_nil_r. Qed.

(** With nothing excluded, two dictionaries with the same single key differ
    as their two values do, one level down. *)
Lemma DeepDiff_single_key (key : string) (a b : value) (ignore_order : bool) :
  DeepDiff (VDict [(key, a)]) (VDict [(key, b)]) ignore_order [] =
  Ok (render (diff_level (fun _ => false) ignore_order a b (key_path "root" key))).
Proof.
  rewrite DeepDiff_nothing_excluded. do 2 f_equal.
  cbn [diff_level]. unfold keys_missing_from, PyDict.mem.
  cbn [filter map fst snd PyDict.get]. rewrite String.eqb_refl.
  cbn [negb filter map merge_all fold_right].
  now rewrite !merge_nothing_l, !merge_nothing_r.
Qed.

(* ===================================================================== *)
(** ** Summary and change list of the JSON and YAML comparators *)
(* ===================================================================== *)

(** C2 (what the code does) — When the target's list under a key has one
    item more than the source's, DeepDiff reports an [iterable_item_added];
    [compare_json] counts it in [summary.additions] but writes no record
    for it: the summary says one addition and the change list is empty. *)
Theorem summary_counts_list_item_missing_from_diff :
  forall (json_loads : string -> result value) (source_content target_content : string)
         (strict : bool),
    json_loads source_content = Ok grown_source_data ->
    json_loads target_content = Ok grown_target_data ->
    exists r,
      compare_json json_loads source_content target_content [] strict = Ok r /\
      summary r = mkSummary 1 0 0 /\
      diff r = [] /\
      additions (summary r) <> count_kind addition (diff r).
Proof.
  intros json_loads source_content target_content strict Hs Ht.
  erewrite compare_json_runs by (eassumption || reflexivity).
  destruct strict;
    (eexists; split; [reflexivity | split; [reflexivity | split; [reflexivity | discriminate]]]).
Qed.

Lemma summary_counts_list_item_missing_from_diff_witness :
  exists r,
    compare_json (loads_from JSONDecodeError grown_documents)
                 grown_source grown_target [] true = Ok r /\
    summary r = mkSummary 1 0 0 /\
    diff r = [] /\
    additions (summary r) <> count_kind addition (diff r).
Proof.
  apply (summary_counts_list_item_missing_from_diff
           (loads_from JSONDecodeError grown_documents) grown_source grown_target true);
    reflexivity.
Defined.

(** C3 (what the code does) — [compare_json] hands [ignore_keys] to
    DeepDiff as [exclude_paths], which names whole paths from the root: a
    key to ignore that sits one level down is compared and reported, with a
    path that ends in that key. *)
Theorem nested_ignored_key_is_reported :
  forall (json_loads : string -> result value) (source_content target_content : string)
         (strict : bool),
    json_loads source_content = Ok nested_source_data ->
    json_loads target_content = Ok nested_target_data ->
    exists formatted,
      compare_json json_loads source_content target_content ["secret"] strict =
      Ok (mkComparison
            (mkSummary 0 0 1)
            [mkChange (key_path (key_path "root" "a") "secret") modification
                      (Some (VStr "x")) (Some (VStr "y"))]
            formatted).
Proof.
  intros json_loads source_content target_content strict Hs Ht.
  erewrite compare_json_runs by (eassumption || reflexivity).
  destruct strict; eexists; reflexivity.
Qed.

Lemma nested_ignored_key_is_reported_witness :
  exists formatted,
    compare_json (loads_from JSONDecodeError nested_documents)
                 nested_source nested_target ["secret"] true =
    Ok (mkComparison
          (mkSummary 0 0 1)
          [mkChange "root['a']['secret']" modification (Some (VStr "x")) (Some (VStr "y"))]
          formatted).
Proof.
  apply (nested_ignored_key_is_reported
           (loads_from JSONDecodeError nested_documents) nested_source nested_target true);
    reflexivity.
Defined.

(** C6 (what the code does) — An integer in the source against the float of
    the same value in the target, under the same key, is a [type_changes]
    entry of DeepDiff; neither comparator reads that section, so both
    return an empty change list and a summary of zero counts. *)
Theorem integer_against_float_is_not_reported :
  forall (json_loads yaml_safe_load : string -> result value)
         (source_content target_content key : string) (z : Z) (strict : bool),
    (json_loads source_content = Ok (VDict [(key, VInt z)]) ->
     json_loads target_content = Ok (VDict [(key, VFloat (inject_Z z))]) ->
     exists formatted,
       compare_json json_loads source_content target_content [] strict =
       Ok (mkComparison no_changes [] formatted)) /\
    (yaml_safe_load source_content = Ok (VDict [(key, VInt z)]) ->
     yaml_safe_load target_content = Ok (VDict [(key, VFloat (inject_Z z))]) ->
     exists formatted,
       compare_yaml yaml_safe_load source_content target_content [] strict =
       Ok (mkComparison no_changes [] formatted)).
Proof.
  intros json_loads yaml_safe_load source_content target_content key z strict.
  split; intros Hs Ht.
  - erewrite compare_json_runs by (eassumption || apply DeepDiff_single_key).
    eexists. reflexivity.
  - erewrite compare_yaml_runs by (eassumption || apply DeepDiff_single_key).
    eexists. reflexivity.
Qed.

Lemma integer_against_float_is_not_reported_witness :
  (exists formatted,
      compare_json (loads_from JSONDecodeError numeric_documents)
                   integer_source float_target [] true =
      Ok (mkComparison no_changes [] formatted)) /\
  (exists formatted,
      compare_yaml (loads_from YAMLError numeric_yaml_documents)
                   "a: 1" "a: 1.0" [] true =
      Ok (mkComparison no_changes [] formatted)).
Proof.
  split.
  - apply (proj1 (integer_against_float_is_not_reported
                    (loads_from JSONDecodeError numeric_documents)
                    (loads_from YAMLError numeric_yaml_documents)
                    integer_source float_target "a" 1%Z true));
      reflexivity.
  - apply (proj2 (integer_against_float_is_not_reported
                    (loads_from JSONDecodeError numeric_documents)
                    (loads_from YAMLError numeric_yaml_documents)
                    "a: 1" "a: 1.0" "a" 1%Z true));
      reflexivity.
Defined.

(* ===================================================================== *)
(** ** The first scenario *)
(* ===================================================================== *)

(** C4 (what the code does) — On the two documents of the first scenario
    [compare_json] returns no change list and no summary. DeepDiff reports
    the key [c] of the target under [dictionary_item_added], which at the
    default verbosity is a set of paths; the loop that writes the additions
    indexes that set by the path ([diff['dictionary_item_added'][path]],
    json_diff.py 37), the lookup raises [TypeError], and the comparator's
    own [except Exception] passes it on as a plain [Exception]. *)
Theorem scenario1_raises_instead_of_reporting :
  forall (json_loads : string -> result value) (strict : bool),
    json_loads scenario1_source = Ok scenario1_source_data ->
    json_loads scenario1_target = Ok scenario1_target_data ->
    compare_json json_loads scenario1_source scenario1_target [] strict =
    Raise (mkExn PlainException
                 "JSON comparison failed: list indices must be integers or slices, not str").
Proof.
  intros json_loads strict Hs Ht.
  erewrite compare_json_runs by (eassumption || reflexivity).
  destruct strict; reflexivity.
Qed.

Lemma scenario1_raises_instead_of_reporting_witness :
  compare_json (loads_from JSONDecodeError scenario1_documents)
               scenario1_source scenario1_target [] true =
  Raise (mkExn PlainException
               "JSON comparison failed: list indices must be integers or slices, not str").
Proof.
  apply (scenario1_raises_instead_of_reporting
           (loads_from JSONDecodeError scenario1_documents) true);
    reflexivity.
Defined.

(* ===================================================================== *)
(** ** Order of list items *)
(* ===================================================================== *)

Lemma append_associative (a b c : string) : (a ++ b) ++ c = a ++ b ++ c.
Proof. induction a as [|x a IH]; simpl; [reflexivity | now rewrite IH]. Qed.









(* ===================================================================== *)
(** ** What holds in general: XML exclusion, summaries *)
(* ===================================================================== *)

(** In the XML comparator every record sits at [parent.key] for a key that
    is not to be ignored, at every depth. *)
Lemma compare_xml_values_skips_ignored_keys (target : value) :
  forall (source_dict : pydict) (ignore_keys : list string) (path0 : string) (c : change),
    In c (compare_xml_values source_dict target ignore_keys path0) ->
    exists parent key,
      path c = parent ++ "." ++ key /\ ~ In key ignore_keys.
Proof.
  induction target as [ |b|z|q|s|items IH|entries IH] using value_rect';
    intros source_dict ignore_keys path0 c Hin; try contradiction.
  cbn [compare_xml_values] in Hin. apply in_app_or in Hin as [Hin | Hin];
    apply in_flat_map in Hin as [[key v] [Hkv Hin]]; cbn [fst snd] in Hin;
    destruct (PyStr.mem key ignore_keys) eqn:Hmem; try contradiction;
    apply mem_not_In in Hmem.
  - destruct (PyDict.get key source_dict) as [old|].
    + destruct (negb (py_eq old v)); [|contradiction].
      rewrite Forall_forall in IH. specialize (IH _ Hkv). cbn [snd] in IH.
      destruct v; destruct old;
        try (destruct Hin as [<- | []]; exists path0, key; now split).
      eapply IH. exact Hin.
    + destruct Hin as [<- | []]. exists path0, key. now split.
  - destruct (PyDict.mem key entries); [contradiction|].
    destruct Hin as [<- | []]. exists path0, key. now split.
Qed.

(** The summary of the XML comparator is the tally of its change list. *)
Lemma compare_xml_summary_is_tally (ET_fromstring : string -> result element)
    (source_content target_content : string) (ignore_keys : list string)
    (strict : bool) (r : comparison) :
  compare_xml ET_fromstring source_content target_content ignore_keys strict = Ok r ->
  summary r = mkSummary (count_kind addition (diff r))
                        (count_kind deletion (diff r))
                        (count_kind modification (diff r)).
Proof.
  unfold compare_xml.
  destruct (ET_fromstring source_content); [|discriminate].
  destruct (ET_fromstring target_content); [|discriminate].
  cbn. intros [= <-]. reflexivity.
Qed.

Lemma mapM_kind {A : Type} (kind : change_kind) (f : A -> result change)
    (l : list A) (records : list change) :
  (forall a c, f a = Ok c -> change_type c = kind) ->
  mapM f l = Ok records ->
  List.length records = List.length l /\ Forall (fun c => change_type c = kind) records.
Proof.
  intros Hf. revert records. induction l as [|a l IH]; simpl; intros records H.
  - injection H as <-. split; [reflexivity | constructor].
  - destruct (f a) as [c|] eqn:Ec; [|discriminate]. cbn [bind] in H.
    destruct (mapM f l) as [cs|]; [|discriminate]. cbn [bind] in H.
    injection H as <-. destruct (IH cs eq_refl) as [Hlen Hall].
    split; [simpl; now rewrite Hlen | constructor; eauto].
Qed.

Lemma count_kind_app (kind : change_kind) (l1 l2 : list change) :
  count_kind kind (l1 ++ l2) = count_kind kind l1 + count_kind kind l2.
Proof. unfold count_kind. now rewrite filter_app, length_app. Qed.

Lemma count_kind_all (kind kind' : change_kind) (l : list change) :
  Forall (fun c => change_type c = kind') l ->
  count_kind kind l = if change_kind_eqb kind' kind then List.length l else 0.
Proof.
  unfold count_kind. induction 1 as [|c l Hc Hl IH]; simpl.
  - now destruct (change_kind_eqb kind' kind).
  - rewrite Hc. destruct (change_kind_eqb kind' kind); simpl; now rewrite IH.
Qed.

(** The records written from a DeepDiff report tally with its dictionary
    and value sections; list items added or removed are counted in the
    summary on top of them. *)
Lemma detailed_diff_tally (d : report) (records : list change) :
  detailed_diff d = Ok records ->
  deepdiff_summary d =
  mkSummary (count_kind addition records + len (iterable_item_added d))
            (count_kind deletion records + len (iterable_item_removed d))
            (count_kind modification records).
Proof.
  unfold detailed_diff.
  destruct (handle_additions d) as [added|] eqn:Ea; [|discriminate].
  destruct (handle_deletions d) as [removed|] eqn:Er; [|discriminate].
  destruct (handle_modifications d) as [changed|] eqn:Ec; [|discriminate].
  cbn [bind]. intros [= <-].
  apply (mapM_kind addition) in Ea as [La Fa].
  2:{ intros a c. destruct (getitem (dictionary_item_added d) a); [|discriminate].
      cbn. now intros [= <-]. }
  apply (mapM_kind deletion) in Er as [Lr Fr].
  2:{ intros a c. destruct (getitem (dictionary_item_removed d) a); [|discriminate].
      cbn. now intros [= <-]. }
  apply (mapM_kind modification) in Ec as [Lc Fc].
  2:{ intros a c. destruct (getitem (values_changed d) a); [|discriminate].
      cbn. now intros [= <-]. }
  rewrite !count_kind_app.
  rewrite (count_kind_all addition _ _ Fa), (count_kind_all addition _ _ Fr),
          (count_kind_all addition _ _ Fc),
          (count_kind_all deletion _ _ Fa), (count_kind_all deletion _ _ Fr),
          (count_kind_all deletion _ _ Fc),
          (count_kind_all modification _ _ Fa), (count_kind_all modification _ _ Fr),
          (count_kind_all modification _ _ Fc).
  cbn [change_kind_eqb]. unfold deepdiff_summary, len.
  rewrite La, Lr, Lc. f_equal; lia.
Qed.

(* ===================================================================== *)
(** ** Failures of the comparators and of the request handler *)
(* ===================================================================== *)

Lemma wrapped_failure {A : Type} (m : result A) (label : string) (e : exn) :
  try_except m (fun e0 => Raise (mkExn PlainException (label ++ str_exn e0))) = Raise e ->
  exn_kind e = PlainException /\ exists cause, exn_text e = label ++ cause.
Proof.
  destruct m as [a|e0]; simpl; [discriminate|]. intros [= <-].
  split; [reflexivity | now exists (str_exn e0)].
Qed.

(** X1 — Whatever a comparator raises is the plain [Exception] of its own
    [except] clause, whose text starts with the comparator's label: no
    exception of a parser or of the comparison itself leaves
    [compare_json], [compare_yaml] or [compare_xml] under its own class. *)
Theorem comparators_raise_only_plain_exceptions :
  forall (json_loads yaml_safe_load : string -> result value)
         (ET_fromstring : string -> result element)
         (source_content target_content : string) (ignore_keys : list string)
         (strict : bool) (e : exn),
    (compare_json json_loads source_content target_content ignore_keys strict = Raise e ->
     exn_kind e = PlainException /\
     exists cause, exn_text e = "JSON comparison failed: " ++ cause) /\
    (compare_yaml yaml_safe_load source_content target_content ignore_keys strict = Raise e ->
     exn_kind e = PlainException /\
     exists cause, exn_text e = "YAML comparison failed: " ++ cause) /\
    (compare_xml ET_fromstring source_content target_content ignore_keys strict = Raise e ->
     exn_kind e = PlainException /\
     exists cause, exn_text e = "XML comparison failed: " ++ cause).
Proof.
  intros json_loads yaml_safe_load ET_fromstring source_content target_content
         ignore_keys strict e.
  split; [|split]; intros Hraise; now apply wrapped_failure in Hraise.
Qed.

Lemma comparators_raise_only_plain_exceptions_witness :
  exn_kind (mkExn PlainException
                  "JSON comparison failed: Expecting value: line 1 column 6 (char 5)") =
  PlainException /\
  exists cause,
    exn_text (mkExn PlainException
                    "JSON comparison failed: Expecting value: line 1 column 6 (char 5)") =
    "JSON comparison failed: " ++ cause.
Proof.
  apply (proj1 (comparators_raise_only_plain_exceptions
                  (loads_from JSONDecodeError malformed_documents)
                  (loads_from YAMLError yaml_documents)
                  (loads_from ParseError xml_documents)
                  malformed_json scenario1_target [] true _)).
  reflexivity.
Defined.

Lemma dispatch_failure (json_loads yaml_safe_load : string -> result value)
    (ET_fromstring : string -> result element) (request : CompareRequest) (e : exn) :
  dispatch json_loads yaml_safe_load ET_fromstring request = Raise e ->
  exn_kind e = PlainException \/ exn_kind e = HTTPException 400.
Proof.
  unfold dispatch.
  destruct (String.eqb (PyStr.lower (request_format request)) "json").
  { intros H. left. now apply wrapped_failure in H. }
  destruct (String.eqb (PyStr.lower (request_format request)) "yaml").
  { intros H. left. now apply wrapped_failure in H. }
  destruct (String.eqb (PyStr.lower (request_format request)) "xml").
  { intros H. left. now apply wrapped_failure in H. }
  intros [= <-]. now right.
Qed.

(** X2 — Every failure of [compare_files] is an [HTTPException] with status
    500 whose detail starts with [Comparison failed: ]: whatever the
    parsers raise and whatever the format, the clauses that answer 400 for
    [JSONDecodeError], [YAMLError] and [ParseError] are never taken. *)
Theorem compare_files_fails_only_with_500 :
  forall (json_loads yaml_safe_load : string -> result value)
         (ET_fromstring : string -> result element)
         (request : CompareRequest) (e : exn),
    compare_files json_loads yaml_safe_load ET_fromstring request = Raise e ->
    exn_kind e = HTTPException 500 /\
    exists cause, exn_text e = "Comparison failed: " ++ cause.
Proof.
  intros json_loads yaml_safe_load ET_fromstring request e. unfold compare_files.
  destruct (dispatch json_loads yaml_safe_load ET_fromstring request) as [r|e0] eqn:Hd;
    simpl; [discriminate|].
  intros [= <-]. apply dispatch_failure in Hd. unfold classify.
  destruct Hd as [-> | ->]; (split; [reflexivity | now exists (str_exn e0)]).
Qed.

Lemma compare_files_fails_only_with_500_witness :
  exn_kind (mkExn (HTTPException 500)
                  "Comparison failed: JSON comparison failed: Expecting value: line 1 column 6 (char 5)") =
  HTTPException 500 /\
  exists cause,
    exn_text (mkExn (HTTPException 500)
                    "Comparison failed: JSON comparison failed: Expecting value: line 1 column 6 (char 5)") =
    "Comparison failed: " ++ cause.
Proof.
  apply (compare_files_fails_only_with_500
           (loads_from JSONDecodeError malformed_documents)
           (loads_from YAMLError yaml_documents)
           (loads_from ParseError xml_documents)
           malformed_request).
  reflexivity.
Defined.

(** X3 — A request whose format, in lower case, is none of [json], [yaml],
    [xml] never reaches a parser and is answered with status 500: the
    [HTTPException] with status 400 that [compare_files] raises for it is
    caught by its own [except Exception] clause. *)
Theorem unsupported_format_is_answered_with_500 :
  forall (json_loads yaml_safe_load : string -> result value)
         (ET_fromstring : string -> result element) (request : CompareRequest),
    let file_format := PyStr.lower (request_format request) in
    file_format <> "json" -> file_format <> "yaml" -> file_format <> "xml" ->
    dispatch json_loads yaml_safe_load ET_fromstring request =
    Raise (mkExn (HTTPException 400) ("Unsupported format: " ++ file_format)) /\
    exists detail,
      compare_files json_loads yaml_safe_load ET_fromstring request =
      Raise (mkExn (HTTPException 500) ("Comparison failed: " ++ detail)).
Proof.
  intros json_loads yaml_safe_load ET_fromstring request file_format Hj Hy Hx.
  assert (Hd : dispatch json_loads yaml_safe_load ET_fromstring request =
               Raise (mkExn (HTTPException 400) ("Unsupported format: " ++ file_format))).
  { unfold dispatch. fold file_format.
    apply String.eqb_neq in Hj, Hy, Hx. now rewrite Hj, Hy, Hx. }
  split; [exact Hd|]. unfold compare_files. rewrite Hd. simpl. eexists. reflexivity.
Qed.

Lemma unsupported_format_is_answered_with_500_witness :
  dispatch (loads_from JSONDecodeError malformed_documents)
           (loads_from YAMLError yaml_documents)
           (loads_from ParseError xml_documents) toml_request =
  Raise (mkExn (HTTPException 400) "Unsupported format: toml") /\
  exists detail,
    compare_files (loads_from JSONDecodeError malformed_documents)
                  (loads_from YAMLError yaml_documents)
                  (loads_from ParseError xml_documents) toml_request =
    Raise (mkExn (HTTPException 500) ("Comparison failed: " ++ detail)).
Proof.
  apply (unsupported_format_is_answered_with_500
           (loads_from JSONDecodeError malformed_documents)
           (loads_from YAMLError yaml_documents)
           (loads_from ParseError xml_documents) toml_request);
    discriminate.
Defined.

(* ===================================================================== *)
(** ** What the request handler normalises *)
(* ===================================================================== *)

Lemma lower_char_twice (c : ascii) : PyStr.lower_char (PyStr.lower_char c) = PyStr.lower_char c.
Proof. destruct c as [[] [] [] [] [] [] [] []]; reflexivity. Qed.

Lemma lower_twice (s : string) : PyStr.lower (PyStr.lower s) = PyStr.lower s.
Proof. induction s as [|c s IH]; simpl; [reflexivity|]. now rewrite lower_char_twice, IH. Qed.

Lemma lstrip_step (s : string) :
  PyStr.lstrip s = match take_space s with Some rest => PyStr.lstrip rest | None => s end.
Proof.
  destruct s as [|a [|b [|c s3]]]; cbn [PyStr.lstrip take_space]; try reflexivity.
  - destruct (PyStr.ascii_space a); reflexivity.
  - destruct (PyStr.ascii_space a); [reflexivity|].
    destruct (PyStr.two_byte_space a b); reflexivity.
  - destruct (PyStr.ascii_space a); [reflexivity|].
    destruct (PyStr.two_byte_space a b); [reflexivity|].
    destruct (PyStr.three_byte_space a b c); reflexivity.
Qed.

Lemma take_space_shorter (s rest : string) :
  take_space s = Some rest -> String.length rest < String.length s.
Proof.
  destruct s as [|a [|b [|c s3]]]; cbn [take_space]; try discriminate.
  - destruct (PyStr.ascii_space a); [|discriminate]. intros [= <-]. simpl. lia.
  - destruct (PyStr.ascii_space a); [intros [= <-]; simpl; lia|].
    destruct (PyStr.two_byte_space a b); [|discriminate]. intros [= <-]. simpl. lia.
  - destruct (PyStr.ascii_space a); [intros [= <-]; simpl; lia|].
    destruct (PyStr.two_byte_space a b); [intros [= <-]; simpl; lia|].
    destruct (PyStr.three_byte_space a b c); [|discriminate]. intros [= <-]. simpl. lia.
Qed.

Lemma take_space_app (s rest w : string) :
  take_space s = Some rest -> take_space (s ++ w) = Some (rest ++ w).
Proof.
  destruct s as [|a [|b [|c s3]]]; cbn [take_space append]; try discriminate.
  - destruct (PyStr.ascii_space a); [|discriminate]. now intros [= <-].
  - destruct (PyStr.ascii_space a); [now intros [= <-]|].
    destruct (PyStr.two_byte_space a b); [|discriminate]. now intros [= <-].
  - destruct (PyStr.ascii_space a); [now intros [= <-]|].
    destruct (PyStr.two_byte_space a b); [now intros [= <-]|].
    destruct (PyStr.three_byte_space a b c); [|discriminate]. now intros [= <-].
Qed.

Lemma two_byte_not_ascii (a b : ascii) :
  PyStr.two_byte_space a b = true -> PyStr.ascii_space a = false.
Proof.
  unfold PyStr.two_byte_space, PyStr.ascii_space.
  destruct (Nat.eqb_spec (nat_of_ascii a) 194) as [->|]; [reflexivity | discriminate].
Qed.

Lemma three_byte_not_shorter (a b c : ascii) :
  PyStr.three_byte_space a b c = true ->
  PyStr.ascii_space a = false /\ PyStr.two_byte_space a b = false.
Proof.
  unfold PyStr.three_byte_space, PyStr.two_byte_space, PyStr.ascii_space.
  destruct (Nat.eqb_spec (nat_of_ascii a) 225) as [->|]; [split; reflexivity|].
  destruct (Nat.eqb_spec (nat_of_ascii a) 226) as [->|]; [split; reflexivity|].
  destruct (Nat.eqb_spec (nat_of_ascii a) 227) as [->|]; [split; reflexivity|].
  discriminate.
Qed.

Lemma blank_take_space (s : string) :
  blank s -> s = EmptyString \/ exists rest, take_space s = Some rest /\ blank rest.
Proof.
  intros H. destruct H as [|a w Ha Hw|a b w Hab Hw|a b c w Habc Hw];
    [now left | right; exists w; cbn [take_space] ..].
  - now rewrite Ha.
  - now rewrite (two_byte_not_ascii a b Hab), Hab.
  - destruct (three_byte_not_shorter a b c Habc) as [-> ->]. now rewrite Habc.
Qed.

Lemma lstrip_blank (w : string) : blank w -> PyStr.lstrip w = EmptyString.
Proof.
  induction 1 as [|a w Ha Hw IH|a b w Hab Hw IH|a b c w Habc Hw IH]; cbn [PyStr.lstrip].
  - reflexivity.
  - now rewrite Ha.
  - now rewrite (two_byte_not_ascii a b Hab), Hab.
  - destruct (three_byte_not_shorter a b c Habc) as [-> ->]. now rewrite Habc.
Qed.

Lemma blank_app (x y : string) : blank x -> blank y -> blank (x ++ y).
Proof.
  induction 1 as [|a x Ha Hx IH|a b x Hab Hx IH|a b c x Habc Hx IH]; intros Hy;
    cbn [append].
  - exact Hy.
  - apply blank_one; auto.
  - apply blank_two; auto.
  - apply blank_three; auto.
Qed.

Lemma take_space_split (s rest : string) :
  take_space s = Some rest ->
  exists sp, blank sp /\ sp <> EmptyString /\ s = sp ++ rest.
Proof.
  destruct s as [|a [|b [|c s3]]]; cbn [take_space]; try discriminate.
  - destruct (PyStr.ascii_space a) eqn:E; [|discriminate]. intros [= <-].
    exists (String a EmptyString).
    split; [apply blank_one; [exact E | constructor] | split; [discriminate | reflexivity]].
  - destruct (PyStr.ascii_space a) eqn:E.
    + intros [= <-]. exists (String a EmptyString).
      split; [apply blank_one; [exact E | constructor] | split; [discriminate | reflexivity]].
    + destruct (PyStr.two_byte_space a b) eqn:E2; [|discriminate]. intros [= <-].
      exists (String a (String b EmptyString)).
      split; [apply blank_two; [exact E2 | constructor] | split; [discriminate | reflexivity]].
  - destruct (PyStr.ascii_space a) eqn:E.
    + intros [= <-]. exists (String a EmptyString).
      split; [apply blank_one; [exact E | constructor] | split; [discriminate | reflexivity]].
    + destruct (PyStr.two_byte_space a b) eqn:E2.
      * intros [= <-]. exists (String a (String b EmptyString)).
        split; [apply blank_two; [exact E2 | constructor]
               | split; [discriminate | reflexivity]].
      * destruct (PyStr.three_byte_space a b c) eqn:E3; [|discriminate]. intros [= <-].
        exists (String a (String b (String c EmptyString))).
        split; [apply blank_three; [exact E3 | constructor]
               | split; [discriminate | reflexivity]].
Qed.

Lemma append_empty (a : string) : a ++ EmptyString = a.
Proof. induction a as [|x a IH]; simpl; [reflexivity | now rewrite IH]. Qed.

(** [lstrip] takes a white prefix away and leaves a string that does not
    start with white space. *)
Lemma lstrip_split_below (n : nat) (s : string) :
  String.length s < n ->
  take_space (PyStr.lstrip s) = None /\
  exists lead, blank lead /\ s = lead ++ PyStr.lstrip s.
Proof.
  revert s. induction n as [|n IH]; intros s Hlen; [lia|].
  rewrite lstrip_step. destruct (take_space s) as [rest|] eqn:E.
  - pose proof (take_space_shorter s rest E) as Hshort.
    destruct (IH rest ltac:(lia)) as [Hclean [lead [Hlead Hrest]]].
    split; [exact Hclean|].
    destruct (take_space_split s rest E) as [sp [Hsp [_ Hs]]].
    exists (sp ++ lead). split; [now apply blank_app|].
    rewrite append_associative, <- Hrest. exact Hs.
  - split; [exact E|]. exists EmptyString. split; [constructor | reflexivity].
Qed.

Lemma lstrip_starts_clean (s : string) : take_space (PyStr.lstrip s) = None.
Proof. apply (lstrip_split_below (S (String.length s))). lia. Qed.

Lemma lstrip_split (s : string) : exists lead, blank lead /\ s = lead ++ PyStr.lstrip s.
Proof. apply (lstrip_split_below (S (String.length s))). lia. Qed.

Lemma lstrip_clean (s : string) : take_space s = None -> PyStr.lstrip s = s.
Proof. intros H. now rewrite lstrip_step, H. Qed.

Lemma lstrip_empty_blank (s : string) : PyStr.lstrip s = EmptyString -> blank s.
Proof.
  intros H. destruct (lstrip_split s) as [lead [Hlead Hs]].
  rewrite H, append_empty in Hs. now subst.
Qed.

Lemma all_space_blank (s : string) :
  PyStr.all_space s = true <-> blank s.
Proof.
  unfold PyStr.all_space. split.
  - destruct (PyStr.lstrip s) eqn:E; [|discriminate]. intros _. now apply lstrip_empty_blank.
  - intros H. now rewrite lstrip_blank.
Qed.

Lemma rstrip_split (s : string) : exists trail, blank trail /\ s = PyStr.rstrip s ++ trail.
Proof.
  induction s as [|a s IH].
  - exists EmptyString. split; [constructor | reflexivity].
  - cbn [PyStr.rstrip]. destruct (PyStr.all_space (String a s)) eqn:E.
    + exists (String a s). split; [now apply all_space_blank | reflexivity].
    + destruct IH as [trail [Ht Hs]]. exists trail. split; [exact Ht|].
      cbn [append]. now rewrite <- Hs.
Qed.

(** No suffix of [rstrip s] is white space. *)
Lemma rstrip_ends_clean (s rest w : string) :
  PyStr.rstrip s = rest ++ w -> blank w -> w = EmptyString.
Proof.
  revert rest. induction s as [|a s IH]; intros rest Hr Hw.
  - cbn in Hr. destruct rest; [now cbn in Hr | discriminate].
  - cbn [PyStr.rstrip] in Hr. destruct (PyStr.all_space (String a s)) eqn:E.
    + destruct rest; [now cbn in Hr | discriminate].
    + destruct rest as [|x rest].
      * cbn [append] in Hr. exfalso.
        destruct (rstrip_split s) as [trail [Ht Hs]].
        assert (Hb : blank (String a s)).
        { rewrite Hs. change (String a (PyStr.rstrip s ++ trail))
                        with (String a (PyStr.rstrip s) ++ trail).
          rewrite Hr. now apply blank_app. }
        apply all_space_blank in Hb. congruence.
      * cbn [append] in Hr. injection Hr as _ Hr. now apply (IH rest).
Qed.

Lemma rstrip_clean (s : string) :
  (forall rest w, s = rest ++ w -> blank w -> w = EmptyString) -> PyStr.rstrip s = s.
Proof.
  intros H. destruct (rstrip_split s) as [trail [Ht Hs]].
  rewrite (H _ _ Hs Ht), append_empty in Hs. now symmetry.
Qed.

Lemma rstrip_twice (s : string) : PyStr.rstrip (PyStr.rstrip s) = PyStr.rstrip s.
Proof. apply rstrip_clean. intros rest w. apply rstrip_ends_clean. Qed.

Lemma rstrip_starts_clean (s : string) :
  take_space s = None -> take_space (PyStr.rstrip s) = None.
Proof.
  intros H. destruct (take_space (PyStr.rstrip s)) as [rest|] eqn:E; [|reflexivity].
  destruct (rstrip_split s) as [trail [_ Hs]].
  apply (take_space_app _ _ trail) in E. rewrite <- Hs in E. congruence.
Qed.

Lemma strip_twice (s : string) : PyStr.strip (PyStr.strip s) = PyStr.strip s.
Proof.
  unfold PyStr.strip.
  rewrite (lstrip_clean (PyStr.rstrip (PyStr.lstrip s))).
  - apply rstrip_twice.
  - apply rstrip_starts_clean, lstrip_starts_clean.
Qed.

(** No prefix of a string that does not start with white space is white. *)
Lemma no_blank_prefix (s w rest : string) :
  take_space s = None -> s = w ++ rest -> blank w -> w = EmptyString.
Proof.
  intros Hs -> Hw. destruct (blank_take_space w Hw) as [->|[r [Hr _]]]; [reflexivity|].
  apply (take_space_app _ _ rest) in Hr. congruence.
Qed.

Lemma strip_blank (s : string) : PyStr.strip s = EmptyString <-> blank s.
Proof.
  unfold PyStr.strip. split.
  - intros H. destruct (lstrip_split s) as [lead [Hlead Hs]].
    destruct (rstrip_split (PyStr.lstrip s)) as [trail [Ht Hl]].
    rewrite H in Hl. cbn in Hl. rewrite Hs, Hl. now apply blank_app.
  - intros H. now rewrite (lstrip_blank s H).
Qed.

Lemma strip_split (s : string) :
  exists lead trail,
    s = lead ++ PyStr.strip s ++ trail /\ blank lead /\ blank trail /\
    no_space_in_front (PyStr.strip s) /\ no_space_at_the_end (PyStr.strip s).
Proof.
  destruct (lstrip_split s) as [lead [Hlead Hs]].
  destruct (rstrip_split (PyStr.lstrip s)) as [trail [Ht Hl]].
  exists lead, trail. unfold PyStr.strip. rewrite <- Hl.
  split; [exact Hs|]. split; [exact Hlead|]. split; [exact Ht|]. split.
  - intros w rest. apply no_blank_prefix. apply rstrip_starts_clean, lstrip_starts_clean.
  - intros rest w. apply rstrip_ends_clean.
Qed.

(** X4 — [compare_files] reads the contents stripped of surrounding white
    space and the format in lower case, and nothing else of them: a request
    and the same request with stripped contents and lower-case format get
    the same answer. *)
Theorem compare_files_ignores_padding_and_case :
  forall (json_loads yaml_safe_load : string -> result value)
         (ET_fromstring : string -> result element) (request : CompareRequest),
    compare_files json_loads yaml_safe_load ET_fromstring (normalised request) =
    compare_files json_loads yaml_safe_load ET_fromstring request.
Proof.
  intros. unfold compare_files, dispatch, normalised.
  cbn [request_source_content request_target_content request_format
       request_ignore_keys request_strict].
  now rewrite !strip_twice, lower_twice.
Qed.

(* ===================================================================== *)
(** ** The records of the XML comparator *)
(* ===================================================================== *)

(** Where a record of [compare_xml_values] comes from: an addition, a
    modification or a deletion at a key that is not ignored, at this level
    or, through a key that is not ignored either, one level down. *)
Lemma compare_xml_values_origin (ignore_keys : list string) (P : string -> change -> Prop) :
  (forall p key v,
      ~ In key ignore_keys ->
      P p (mkChange (p ++ "." ++ key) addition None (Some v))) ->
  (forall p key old v,
      ~ In key ignore_keys -> py_eq old v = false -> is_dict old && is_dict v = false ->
      P p (mkChange (p ++ "." ++ key) modification (Some old) (Some v))) ->
  (forall p key v,
      ~ In key ignore_keys ->
      P p (mkChange (p ++ "." ++ key) deletion (Some v) None)) ->
  (forall p key c, ~ In key ignore_keys -> P (p ++ "." ++ key) c -> P p c) ->
  forall (target : value) (source_dict : pydict) (p : string) (c : change),
    In c (compare_xml_values source_dict target ignore_keys p) -> P p c.
Proof.
  intros Hadd Hmod Hdel Hdown target.
  induction target as [ |b|z|q|s|items IH|entries IH] using value_rect';
    intros source_dict p c Hin; try contradiction.
  cbn [compare_xml_values] in Hin. apply in_app_or in Hin as [Hin | Hin];
    apply in_flat_map in Hin as [[key v] [Hkv Hin]]; cbn [fst snd] in Hin;
    destruct (PyStr.mem key ignore_keys) eqn:Hmem; try contradiction;
    apply mem_not_In in Hmem.
  - destruct (PyDict.get key source_dict) as [old|].
    + destruct (py_eq old v) eqn:Heq; cbn [negb] in Hin; [contradiction|].
      rewrite Forall_forall in IH. specialize (IH _ Hkv). cbn [snd] in IH.
      destruct v; destruct old;
        try (destruct Hin as [<- | []]; apply Hmod; auto; fail).
      apply (Hdown p key c Hmem). eapply IH. exact Hin.
    + destruct Hin as [<- | []]. now apply Hadd.
  - destruct (PyDict.mem key entries); [contradiction|].
    destruct Hin as [<- | []]. now apply Hdel.
Qed.




(** X6 — Every record of the XML comparator, and every record the JSON and
    YAML comparators write from a DeepDiff report, carries the fields of
    its kind: an addition the new value only, a deletion the old value
    only, a modification both. *)
Theorem records_carry_the_fields_of_their_kind :
  (forall (source_dict target_dict : pydict) (ignore_keys : list string)
          (path0 : string) (c : change),
      In c (compare_xml_dicts source_dict target_dict ignore_keys path0) -> well_shaped c) /\
  (forall (d : report) (records : list change) (c : change),
      detailed_diff d = Ok records -> In c records -> well_shaped c).
Proof.
  split.
  - intros source_dict target_dict ignore_keys path0 c. unfold compare_xml_dicts.
    apply (compare_xml_values_origin ignore_keys (fun _ c => well_shaped c));
      try (intros; unfold well_shaped; simpl; split; congruence).
    intros p key c' _ H. exact H.
  - intros d records c. unfold detailed_diff.
    destruct (handle_additions d) as [added|] eqn:Ea; [|discriminate].
    destruct (handle_deletions d) as [removed|] eqn:Er; [|discriminate].
    destruct (handle_modifications d) as [changed|] eqn:Ec; [|discriminate].
    cbn [bind]. intros [= <-] Hin.
    assert (Hall : forall (f : string -> result change) l rs,
               (forall a x, f a = Ok x -> well_shaped x) ->
               mapM f l = Ok rs -> Forall well_shaped rs).
    { intros f l. induction l as [|a l IH]; simpl; intros rs Hf H.
      - injection H as <-. constructor.
      - destruct (f a) as [x|] eqn:Ex; [|discriminate]. cbn [bind] in H.
        destruct (mapM f l) as [xs|]; [|discriminate]. cbn [bind] in H.
        injection H as <-. constructor; eauto. }
    apply Hall in Ea, Er, Ec.
    + rewrite Forall_forall in Ea, Er, Ec.
      apply in_app_or in Hin as [Hin | Hin]; [auto|].
      apply in_app_or in Hin as [Hin | Hin]; auto.
    + intros a x. destruct (getitem (values_changed d) a); [|discriminate].
      cbn. intros [= <-]. unfold well_shaped. simpl. split; congruence.
    + intros a x. destruct (getitem (dictionary_item_removed d) a); [|discriminate].
      cbn. intros [= <-]. unfold well_shaped. simpl. split; congruence.
    + intros a x. destruct (getitem (dictionary_item_added d) a); [|discriminate].
      cbn. intros [= <-]. unfold well_shaped. simpl. split; congruence.
Qed.

Lemma records_carry_the_fields_of_their_kind_witness :
  well_shaped host_deleted /\ well_shaped port_changed.
Proof.
  split.
  - apply (proj1 records_carry_the_fields_of_their_kind
             server_old_dict server_new_dict [] "root" host_deleted).
    vm_compute. tauto.
  - apply (proj2 records_carry_the_fields_of_their_kind port_report [port_changed] port_changed).
    + reflexivity.
    + now left.
Defined.

(** X7 — The XML comparator reports a modification only where the two
    values really differ and are not both dictionaries: two unequal
    dictionaries are never reported as such, the comparison goes into
    them. *)
Theorem xml_modifications_sit_at_the_deepest_level :
  forall (source_dict target_dict : pydict) (ignore_keys : list string)
         (path0 : string) (c : change),
    In c (compare_xml_dicts source_dict target_dict ignore_keys path0) ->
    change_type c = modification ->
    exists old new,
      old_value c = Some old /\ new_value c = Some new /\
      py_eq old new = false /\ is_dict old && is_dict new = false.
Proof.
  intros source_dict target_dict ignore_keys path0 c. unfold compare_xml_dicts.
  apply (compare_xml_values_origin ignore_keys
           (fun _ c => change_type c = modification ->
                       exists old new,
                         old_value c = Some old /\ new_value c = Some new /\
                         py_eq old new = false /\ is_dict old && is_dict new = false)).
  - intros p key v _ H. discriminate.
  - intros p key old v _ Hne Hleaf _. now exists old, v.
  - intros p key v _ H. discriminate.
  - intros p key c' _ H. exact H.
Qed.

Lemma xml_modifications_sit_at_the_deepest_level_witness :
  exists old new,
    old_value port_modified = Some old /\ new_value port_modified = Some new /\
    py_eq old new = false /\ is_dict old && is_dict new = false.
Proof.
  apply (xml_modifications_sit_at_the_deepest_level
           server_old_dict server_new_dict [] "root" port_modified).
  - vm_compute. tauto.
  - reflexivity.
Defined.

Lemma compare_xml_values_ignoring_more (target : value) :
  forall (source_dict : pydict) (fewer more : list string) (path0 : string) (c : change),
    incl fewer more ->
    In c (compare_xml_values source_dict target more path0) ->
    In c (compare_xml_values source_dict target fewer path0).
Proof.
  induction target as [ |b|z|q|s|items IH|entries IH] using value_rect';
    intros source_dict fewer more path0 c Hincl Hin; try contradiction.
  cbn [compare_xml_values] in *. apply in_or_app.
  apply in_app_or in Hin as [Hin | Hin]; [left | right];
    apply in_flat_map in Hin as [[key v] [Hkv Hin]]; cbn [fst snd] in Hin;
    apply in_flat_map; exists (key, v); (split; [exact Hkv|]); cbn [fst snd];
    destruct (PyStr.mem key more) eqn:Hmore; try contradiction;
    assert (Hfewer : PyStr.mem key fewer = false)
      by (apply mem_not_In; apply mem_not_In in Hmore; intros F; apply Hmore, Hincl, F);
    rewrite Hfewer.
  - destruct (PyDict.get key source_dict) as [old|]; [|exact Hin].
    destruct (negb (py_eq old v)); [|contradiction].
    rewrite Forall_forall in IH. specialize (IH _ Hkv). cbn [snd] in IH.
    destruct v; destruct old; try exact Hin.
    eapply IH; eassumption.
  - exact Hin.
Qed.

(** X8 — Ignoring more keys never adds a record to the XML comparison:
    whatever is reported with a larger list of keys to ignore is reported
    with a smaller one. *)
Theorem xml_ignoring_more_reports_less :
  forall (source_dict target_dict : pydict) (fewer more : list string)
         (path0 : string) (c : change),
    incl fewer more ->
    In c (compare_xml_dicts source_dict target_dict more path0) ->
    In c (compare_xml_dicts source_dict target_dict fewer path0).
Proof.
  intros source_dict target_dict fewer more path0 c. unfold compare_xml_dicts.
  apply compare_xml_values_ignoring_more.
Qed.

Lemma xml_ignoring_more_reports_less_witness :
  In host_deleted (compare_xml_dicts server_old_dict server_new_dict ["tls"] "root").
Proof.
  apply (xml_ignoring_more_reports_less server_old_dict server_new_dict
           ["tls"] ["tls"; "debug"] "root" host_deleted).
  - intros k [<- | []]. now left.
  - vm_compute. tauto.
Defined.

(* ===================================================================== *)
(** ** An empty side *)
(* ===================================================================== *)

Lemma flat_map_kept {B : Type} (ignore_keys : list string) (f : string * value -> B)
    (d : pydict) :
  flat_map (fun kv : string * value =>
              if PyStr.mem (fst kv) ignore_keys then [] else [f kv]) d =
  map f (kept ignore_keys d).
Proof.
  unfold kept. induction d as [|kv d IH]; simpl; [reflexivity|].
  destruct (PyStr.mem (fst kv) ignore_keys); simpl; now rewrite IH.
Qed.

(** X9 — Against an empty source dictionary the XML comparator reports
    every target key that is not ignored as an addition, in the order of
    the target and without going into the values; against an empty target
    it reports every source key that is not ignored as a deletion, in the
    order of the source. *)
Theorem xml_comparison_with_an_empty_side :
  forall (d : pydict) (ignore_keys : list string) (path0 : string),
    compare_xml_dicts [] d ignore_keys path0 = map (added_at path0) (kept ignore_keys d) /\
    compare_xml_dicts d [] ignore_keys path0 = map (deleted_at path0) (kept ignore_keys d).
Proof.
  intros d ignore_keys path0. unfold compare_xml_dicts. cbn [compare_xml_values flat_map].
  split.
  - rewrite app_nil_r. apply (flat_map_kept ignore_keys (added_at path0)).
  - cbn [app]. apply (flat_map_kept ignore_keys (deleted_at path0)).
Qed.

(* ===================================================================== *)
(** ** Symmetry of [==] and of the XML comparison *)
(* ===================================================================== *)

Lemma distinct_NoDup (l : list string) : distinct l = true <-> NoDup l.
Proof.
  induction l as [|a l IH]; simpl.
  - split; [constructor | reflexivity].
  - rewrite andb_true_iff, negb_true_iff, mem_not_In, IH. split.
    + intros [H1 H2]. now constructor.
    + intros H. inversion H. now split.
Qed.

Lemma In_keys (d : pydict) (k : string) :
  In k (map fst d) -> exists v, In (k, v) d.
Proof. intros H. apply in_map_iff in H as [[k' v] [<- H]]. now exists v. Qed.

Lemma all2_swap {A B : Type} (f : A -> B -> bool) (g : B -> A -> bool)
    (xs : list A) (ys : list B) :
  Forall (fun x => forall y, In y ys -> f x y = true -> g y x = true) xs ->
  all2 f xs ys = true -> all2 g ys xs = true.
Proof.
  intros H. revert ys H. induction xs as [|x xs IH]; intros [|y ys] H; simpl;
    try reflexivity; try discriminate.
  rewrite !andb_true_iff. intros [Hxy Hrest]. inversion H as [|? ? Hx Hxs]; subst. split.
  - apply Hx; [now left | exact Hxy].
  - apply IH; [|exact Hrest]. eapply Forall_impl; [|exact Hxs].
    intros a Ha y' Hy'. apply Ha. now right.
Qed.

(** Two dictionaries that hold each key once, the first as long as the
    second and with all its keys in the second, have the same keys. *)
Lemma keys_back (d1 d2 : pydict) (k : string) :
  distinct (map fst d1) = true ->
  List.length d1 = List.length d2 ->
  (forall k', In k' (map fst d1) -> In k' (map fst d2)) ->
  In k (map fst d2) -> In k (map fst d1).
Proof.
  intros Hd Hlen Hsub. apply (NoDup_length_incl (l := map fst d1)).
  - now apply distinct_NoDup.
  - rewrite !length_map. lia.
  - exact Hsub.
Qed.

Lemma py_eq_dict (d1 d2 : pydict) :
  py_eq (VDict d1) (VDict d2) = true <->
  List.length d1 = List.length d2 /\
  forall k v, In (k, v) d1 -> exists w, PyDict.get k d2 = Some w /\ py_eq v w = true.
Proof.
  cbn [py_eq]. rewrite andb_true_iff, Nat.eqb_eq, forallb_forall. split.
  - intros [Hlen H]. split; [exact Hlen|]. intros k v Hin. specialize (H _ Hin).
    cbn [fst snd] in H. destruct (PyDict.get k d2) as [w|]; [|discriminate]. now exists w.
  - intros [Hlen H]. split; [exact Hlen|]. intros [k v] Hin. cbn [fst snd].
    destruct (H _ _ Hin) as [w [-> Hw]]. exact Hw.
Qed.

(** On values whose dictionaries hold each key once, [==] is symmetric. *)
Lemma py_eq_sym (a : value) :
  forall b, well_formed a = true -> well_formed b = true ->
            py_eq a b = true -> py_eq b a = true.
Proof.
  induction a as [ |x|x|x|x|items IH|entries IH] using value_rect'; intros b Ha Hb H.
  - destruct b; try discriminate; reflexivity.
  - destruct b; try discriminate; cbn in *; apply Qeq_bool_iff in H;
      apply Qeq_bool_iff; now symmetry.
  - destruct b; try discriminate; cbn in *; apply Qeq_bool_iff in H;
      apply Qeq_bool_iff; now symmetry.
  - destruct b; try discriminate; cbn in *; apply Qeq_bool_iff in H;
      apply Qeq_bool_iff; now symmetry.
  - destruct b; try discriminate. cbn in *. now rewrite String.eqb_sym.
  - destruct b as [ | | | | |ys| ]; try discriminate. cbn [py_eq] in *.
    apply well_formed_list in Ha, Hb. rewrite Forall_forall in Ha, Hb.
    eapply all2_swap; [|exact H]. apply Forall_forall. intros x Hx y Hy Hxy.
    rewrite Forall_forall in IH. apply IH; auto.
  - destruct b as [ | | | | | |d2]; try discriminate.
    apply well_formed_dict in Ha as [Hd1 Hw1], Hb as [Hd2 Hw2].
    rewrite Forall_forall in Hw1, Hw2, IH.
    apply py_eq_dict in H as [Hlen H]. apply py_eq_dict. split; [now symmetry|].
    intros k w Hin.
    assert (Hk : In k (map fst entries)).
    { apply (keys_back entries d2); auto.
      - intros k' Hk'. apply In_keys in Hk' as [v' Hv'].
        destruct (H _ _ Hv') as [w' [Hg _]]. apply get_In in Hg.
        apply in_map_iff. now exists (k', w').
      - apply in_map_iff. now exists (k, w). }
    apply In_keys in Hk as [v Hv]. exists v. split; [now apply get_of_distinct|].
    destruct (H _ _ Hv) as [w' [Hg Hvw]].
    rewrite (get_of_distinct _ _ _ Hd2 Hin) in Hg. injection Hg as <-.
    apply (IH _ Hv w); [apply (Hw1 _ Hv) | apply (Hw2 _ Hin) | exact Hvw].
Qed.

Lemma mirror_twice (c : change) : mirror (mirror c) = c.
Proof. destruct c as [p [] o n]; reflexivity. Qed.

Lemma dict_mem_false (d : pydict) (k : string) :
  PyDict.mem k d = false <-> PyDict.get k d = None.
Proof. unfold PyDict.mem. destruct (PyDict.get k d); split; congruence. Qed.

Lemma compare_xml_values_mirror (ignore_keys : list string) (target : value) :
  forall (source_dict : pydict) (path0 : string) (c : change),
    well_formed (VDict source_dict) = true -> well_formed target = true ->
    In c (compare_xml_values source_dict target ignore_keys path0) ->
    In (mirror c) (compare_xml_values (as_dict target) (VDict source_dict) ignore_keys path0).
Proof.
  induction target as [ |b|z|q|s|items IH|entries IH] using value_rect';
    intros source_dict path0 c Hws Hwt Hin; try contradiction.
  pose proof Hws as Hws'. pose proof Hwt as Hwt'.
  apply well_formed_dict in Hws' as [Hds Has], Hwt' as [Hdt Hat].
  rewrite Forall_forall in Has, Hat, IH.
  cbn [as_dict]. cbn [compare_xml_values] in *. apply in_or_app.
  apply in_app_or in Hin as [Hin | Hin];
    apply in_flat_map in Hin as [[key v] [Hkv Hin]]; cbn [fst snd] in Hin;
    destruct (PyStr.mem key ignore_keys) eqn:Hmem; try contradiction.
  - destruct (PyDict.get key source_dict) as [old|] eqn:Hget.
    + destruct (py_eq old v) eqn:Heq; cbn [negb] in Hin; [contradiction|].
      pose proof (get_In _ _ _ Hget) as Hold.
      pose proof (Has _ Hold) as Hwold. pose proof (Hat _ Hkv) as Hwv. cbn [snd] in Hwold, Hwv.
      assert (Hne : py_eq v old = false).
      { destruct (py_eq v old) eqn:E; [|reflexivity].
        apply py_eq_sym in E; auto. congruence. }
      left. apply in_flat_map. exists (key, old). split; [exact Hold|]. cbn [fst snd].
      rewrite Hmem, (get_of_distinct _ _ _ Hdt Hkv), Hne. cbn [negb].
      specialize (IH _ Hkv). cbn [snd] in IH.
      destruct v as [ | | | | | |vd]; destruct old as [ | | | | | |od];
        try (destruct Hin as [<- | []]; now left).
      apply (IH od (path0 ++ "." ++ key) c Hwold Hwv Hin).
    + destruct Hin as [<- | []]. right. apply in_flat_map. exists (key, v).
      split; [exact Hkv|]. cbn [fst snd]. rewrite Hmem.
      rewrite (proj2 (dict_mem_false source_dict key) Hget). now left.
  - destruct (PyDict.mem key entries) eqn:Hm; [contradiction|].
    destruct Hin as [<- | []]. left. apply in_flat_map. exists (key, v).
    split; [exact Hkv|]. cbn [fst snd]. rewrite Hmem.
    rewrite (proj1 (dict_mem_false entries key) Hm). now left.
Qed.

(** X10 — The XML comparison is symmetric in kind: for two dictionaries
    that hold each key once, a record is reported from source to target
    exactly when its mirror image is reported from target to source (an
    addition against a deletion of the same value at the same path, a
    modification against the modification with old and new swapped). *)
Theorem xml_comparison_is_symmetric :
  forall (source_dict target_dict : pydict) (ignore_keys : list string)
         (path0 : string) (c : change),
    well_formed (VDict source_dict) = true -> well_formed (VDict target_dict) = true ->
    (In c (compare_xml_dicts source_dict target_dict ignore_keys path0) <->
     In (mirror c) (compare_xml_dicts target_dict source_dict ignore_keys path0)).
Proof.
  intros source_dict target_dict ignore_keys path0 c Hs Ht. unfold compare_xml_dicts. split.
  - apply (compare_xml_values_mirror ignore_keys (VDict target_dict)); assumption.
  - intros H. rewrite <- (mirror_twice c).
    apply (compare_xml_values_mirror ignore_keys (VDict source_dict)); assumption.
Qed.

Lemma xml_comparison_is_symmetric_witness :
  In host_deleted (compare_xml_dicts server_old_dict server_new_dict [] "root") <->
  In (mirror host_deleted) (compare_xml_dicts server_new_dict server_old_dict [] "root").
Proof.
  apply (xml_comparison_is_symmetric server_old_dict server_new_dict [] "root" host_deleted);
    reflexivity.
Defined.

(* ===================================================================== *)
(** ** No record exactly when the dictionaries are equal *)
(* ===================================================================== *)

Lemma flat_map_empty {A B : Type} (f : A -> list B) (l : list A) (a : A) :
  flat_map f l = [] -> In a l -> f a = [].
Proof.
  induction l as [|x l IH]; simpl; [contradiction|].
  intros H [<- | Hin]; apply app_eq_nil in H as [H1 H2]; auto.
Qed.

Lemma compare_xml_values_nothing_equal (target : value) :
  forall (source_dict : pydict) (path0 : string),
    well_formed (VDict source_dict) = true -> well_formed target = true ->
    is_dict target = true ->
    compare_xml_values source_dict target [] path0 = [] ->
    py_eq (VDict source_dict) target = true.
Proof.
  induction target as [ |b|z|q|s|items IH|entries IH] using value_rect';
    intros source_dict path0 Hws Hwt Hdict Hnil; try discriminate.
  pose proof Hws as Hws'. pose proof Hwt as Hwt'.
  apply well_formed_dict in Hws' as [Hds Has], Hwt' as [Hdt Hat].
  rewrite Forall_forall in Has, Hat, IH.
  cbn [compare_xml_values] in Hnil. apply app_eq_nil in Hnil as [Htarget Hsource].
  (* every target key is in the source, with an equal value *)
  assert (Hcommon : forall k v, In (k, v) entries ->
                      exists old, PyDict.get k source_dict = Some old /\ py_eq old v = true).
  { intros k v Hkv. pose proof (flat_map_empty _ _ _ Htarget Hkv) as H. cbn [fst snd] in H.
    cbn [PyStr.mem existsb] in H.
    destruct (PyDict.get k source_dict) as [old|] eqn:Hget; [|discriminate].
    exists old. split; [reflexivity|].
    destruct (py_eq old v) eqn:Heq; [reflexivity|]. cbn [negb] in H.
    pose proof (get_In _ _ _ Hget) as Hold.
    pose proof (Has _ Hold) as Hwold. pose proof (Hat _ Hkv) as Hwv. cbn [snd] in Hwold, Hwv.
    specialize (IH _ Hkv). cbn [snd] in IH.
    destruct v as [ | | | | | |vd]; destruct old as [ | | | | | |od]; try discriminate.
    rewrite (IH od (path0 ++ "." ++ k) Hwold Hwv eq_refl H) in Heq. discriminate. }
  (* every source key is in the target *)
  assert (Hback : forall k, In k (map fst source_dict) -> In k (map fst entries)).
  { intros k Hk. apply In_keys in Hk as [v Hkv].
    pose proof (flat_map_empty _ _ _ Hsource Hkv) as H. cbn [fst snd] in H.
    cbn [PyStr.mem existsb] in H. apply dict_mem_In.
    destruct (PyDict.mem k entries); [reflexivity | discriminate]. }
  assert (Hforth : forall k, In k (map fst entries) -> In k (map fst source_dict)).
  { intros k Hk. apply In_keys in Hk as [v Hkv].
    destruct (Hcommon _ _ Hkv) as [old [Hget _]]. apply get_In in Hget.
    apply in_map_iff. now exists (k, old). }
  apply py_eq_dict. split.
  - apply distinct_NoDup in Hds, Hdt.
    pose proof (NoDup_incl_length Hds Hback) as L1.
    pose proof (NoDup_incl_length Hdt Hforth) as L2.
    rewrite !length_map in L1, L2. lia.
  - intros k v Hkv.
    assert (Hk : In k (map fst entries)).
    { apply Hback. apply in_map_iff. now exists (k, v). }
    apply In_keys in Hk as [w Hw]. exists w. split; [now apply get_of_distinct|].
    destruct (Hcommon _ _ Hw) as [old [Hget Heq]].
    rewrite (get_of_distinct _ _ _ Hds Hkv) in Hget. now injection Hget as <-.
Qed.

Lemma compare_xml_dicts_equal_nothing (source_dict target_dict : pydict)
    (ignore_keys : list string) (path0 : string) :
  well_formed (VDict source_dict) = true -> well_formed (VDict target_dict) = true ->
  py_eq (VDict source_dict) (VDict target_dict) = true ->
  compare_xml_dicts source_dict target_dict ignore_keys path0 = [].
Proof.
  intros Hws Hwt Heq. pose proof (py_eq_sym _ _ Hws Hwt Heq) as Hqe.
  pose proof Hws as Hws'. pose proof Hwt as Hwt'.
  apply well_formed_dict in Hws' as [Hds Has], Hwt' as [Hdt Hat].
  rewrite Forall_forall in Has, Hat.
  apply py_eq_dict in Heq as [_ Hst], Hqe as [_ Hts].
  unfold compare_xml_dicts. cbn [compare_xml_values].
  rewrite !flat_map_nil; [reflexivity | |].
  - intros [k v] Hkv. cbn [fst snd]. destruct (PyStr.mem k ignore_keys); [reflexivity|].
    destruct (Hst _ _ Hkv) as [w [Hget _]].
    now rewrite (proj2 (dict_mem_In target_dict k))
      by (apply in_map_iff; exists (k, w); split; [reflexivity | now apply get_In]).
  - intros [k v] Hkv. cbn [fst snd]. destruct (PyStr.mem k ignore_keys); [reflexivity|].
    destruct (Hts _ _ Hkv) as [old [Hget Hvo]]. rewrite Hget.
    apply py_eq_sym in Hvo; [now rewrite Hvo | apply (Hat _ Hkv) |].
    apply get_In in Hget. apply (Has _ Hget).
Qed.

(** X11 — With no key ignored, the XML comparator reports no change exactly
    when the two dictionaries are equal ([==], whatever the order of their
    keys): it never stays silent about a difference and never reports one
    between equal dictionaries. *)
Theorem xml_reports_nothing_iff_equal :
  forall (source_dict target_dict : pydict) (path0 : string),
    well_formed (VDict source_dict) = true -> well_formed (VDict target_dict) = true ->
    (compare_xml_dicts source_dict target_dict [] path0 = [] <->
     py_eq (VDict source_dict) (VDict target_dict) = true).
Proof.
  intros source_dict target_dict path0 Hs Ht. split.
  - unfold compare_xml_dicts. now apply compare_xml_values_nothing_equal.
  - now apply compare_xml_dicts_equal_nothing.
Qed.

Lemma xml_reports_nothing_iff_equal_witness :
  compare_xml_dicts server_old_dict server_old_dict [] "root" = [] <->
  py_eq (VDict server_old_dict) (VDict server_old_dict) = true.
Proof.
  apply (xml_reports_nothing_iff_equal server_old_dict server_old_dict "root"); reflexivity.
Defined.

(* ===================================================================== *)
(** ** Text and key order in [xml_to_dict] *)
(* ===================================================================== *)

(** X12 — [xml_to_dict] stores the text of an element without the white
    space around it, under the key [text]; text that is white space only
    (or empty) is not stored, the element is read as one without text.
    Otherwise the text is some white space, the stored text and some white
    space again, and the stored text neither starts nor ends with white
    space. A child element tagged [text] shares the key: with text present
    the entry becomes the list of the text followed by the children's
    dictionaries. *)
Theorem xml_text_is_stripped_and_shares_its_key :
  forall (tag t : string) (children : list element),
    let e := Element tag (Some t) children in
    let kids := map xml_to_dict (text_children children) in
    (blank t ->
     xml_to_dict e = xml_to_dict (Element tag None children)) /\
    (~ blank t ->
     exists lead stored trail,
       t = lead ++ stored ++ trail /\ blank lead /\ blank trail /\
       stored <> EmptyString /\
       no_space_in_front stored /\ no_space_at_the_end stored /\
       PyDict.get "text" (as_dict (xml_to_dict e)) =
       match kids with
       | [] => Some (VStr stored)
       | _ => Some (VList (VStr stored :: kids))
       end).
Proof.
  intros tag t children e kids. unfold e. split; intros Hs.
  - apply strip_blank in Hs. cbn [xml_to_dict hoist_text]. now rewrite Hs.
  - destruct (strip_split t) as [lead [trail [Ht [Hlead [Htrail [Hfront Hend]]]]]].
    exists lead, (PyStr.strip t), trail.
    assert (Hne : PyStr.strip t <> EmptyString).
    { intros H. apply Hs. now apply strip_blank. }
    split; [exact Ht|]. split; [exact Hlead|]. split; [exact Htrail|].
    split; [exact Hne|]. split; [exact Hfront|]. split; [exact Hend|].
    rewrite xml_to_dict_entries.
    unfold entries_for. cbn [text_of children_of hoist_text]. fold (text_children children).
    fold kids. destruct (PyStr.strip t) as [|c r] eqn:E; [congruence|]. cbn.
    destruct kids; reflexivity.
Qed.

Lemma xml_text_is_stripped_and_shares_its_key_witness :
  xml_to_dict (Element "note" (Some (" " ++ no_break_space)) [Element "b" None []]) =
  xml_to_dict (Element "note" None [Element "b" None []]) /\
  exists lead stored trail,
    note_text = lead ++ stored ++ trail /\ blank lead /\ blank trail /\
    stored <> EmptyString /\
    no_space_in_front stored /\ no_space_at_the_end stored /\
    PyDict.get "text" (as_dict (xml_to_dict note_element)) =
    Some (VList [VStr stored; VDict [("text", VStr "x")]]).
Proof.
  split.
  - apply (proj1 (xml_text_is_stripped_and_shares_its_key
                    "note" (" " ++ no_break_space) [Element "b" None []])).
    apply blank_one; [reflexivity|]. apply blank_two; [reflexivity | constructor].
  - apply (proj2 (xml_text_is_stripped_and_shares_its_key
                    "note" note_text
                    [Element "text" (Some "x") []; Element "b" None []])).
    intros H. apply strip_blank in H. vm_compute in H. discriminate.
Defined.

Lemma str_mem_keys (d : pydict) (k : string) : PyStr.mem k (map fst d) = PyDict.mem k d.
Proof.
  destruct (PyDict.mem k d) eqn:E.
  - apply mem_In. now apply dict_mem_In.
  - apply mem_not_In. rewrite <- dict_mem_In. congruence.
Qed.

Lemma add_child_keys (result : pydict) (child : string * value) :
  map fst (add_child result child) =
  if PyDict.mem (fst child) result then map fst result
  else (map fst result ++ [fst child])%list.
Proof.
  destruct child as [t data]. cbn [fst]. unfold add_child, PyDict.mem.
  destruct (PyDict.get t result) as [prior|] eqn:E.
  - destruct prior; rewrite set_keys; unfold PyDict.mem; now rewrite E.
  - rewrite set_keys. unfold PyDict.mem. now rewrite E.
Qed.

Lemma fold_add_child_keys (children : list (string * value)) (result : pydict) :
  map fst (fold_left add_child children result) =
  (map fst result ++ first_seen (map fst result) (map fst children))%list.
Proof.
  revert result. induction children as [|c cs IH]; intros result; simpl.
  - now rewrite app_nil_r.
  - rewrite IH, add_child_keys, str_mem_keys.
    destruct (PyDict.mem (fst c) result); [reflexivity|].
    now rewrite <- app_assoc.
Qed.

(** X13 — The keys of the dictionary [xml_to_dict] builds are, in order:
    [text] if the element has text to store, then the tags of the children
    in the order in which each tag first occurs; a repeated tag keeps the
    place of its first occurrence. *)
Theorem xml_keys_follow_first_occurrence :
  forall (e : element),
    PyDict.keys (as_dict (xml_to_dict e)) =
    (PyDict.keys (hoist_text (text_of e)) ++
     first_seen (PyDict.keys (hoist_text (text_of e))) (map tag_of (children_of e)))%list.
Proof.
  intros [tag text children]. cbn [xml_to_dict as_dict text_of children_of].
  unfold PyDict.keys. rewrite fold_add_child_keys, map_map. reflexivity.
Qed.

(* ===================================================================== *)
(** ** Summary and change list of the JSON and YAML comparators *)
(* ===================================================================== *)

Lemma compare_json_returns (json_loads : string -> result value)
    (source_content target_content : string) (ignore_keys : list string)
    (strict : bool) (r : comparison) :
  compare_json json_loads source_content target_content ignore_keys strict = Ok r ->
  exists t, detailed_diff (render t) = Ok (diff r) /\
            summary r = deepdiff_summary (render t).
Proof.
  unfold compare_json.
  destruct (json_loads source_content) as [x|]; [|discriminate].
  destruct (json_loads target_content) as [y|]; [|discriminate].
  cbn [bind]. unfold DeepDiff.
  destruct (add_root_to_paths ignore_keys) as [excluded|]; [|discriminate].
  cbn [bind]. set (t := diff_level _ _ x y "root").
  destruct (detailed_diff (render t)) as [records|] eqn:E; [|discriminate].
  cbn. intros [= <-]. now exists t.
Qed.

Lemma compare_yaml_returns (yaml_safe_load : string -> result value)
    (source_content target_content : string) (ignore_keys : list string)
    (strict : bool) (r : comparison) :
  compare_yaml yaml_safe_load source_content target_content ignore_keys strict = Ok r ->
  exists t, detailed_diff (render t) = Ok (diff r) /\
            summary r = deepdiff_summary (render t).
Proof.
  unfold compare_yaml.
  destruct (yaml_safe_load source_content) as [x|]; [|discriminate].
  destruct (yaml_safe_load target_content) as [y|]; [|discriminate].
  cbn [bind]. unfold DeepDiff.
  destruct (add_root_to_paths ignore_keys) as [excluded|]; [|discriminate].
  cbn [bind]. set (t := diff_level _ _ x y "root").
  destruct (detailed_diff (render t)) as [records|] eqn:E; [|discriminate].
  cbn. intros [= <-]. now exists t.
Qed.

Lemma summary_covers_the_list (d : report) (r : comparison) :
  detailed_diff d = Ok (diff r) -> summary r = deepdiff_summary d ->
  modifications (summary r) = count_kind modification (diff r) /\
  count_kind addition (diff r) <= additions (summary r) /\
  count_kind deletion (diff r) <= deletions (summary r).
Proof.
  intros Hd Hs. rewrite Hs, (detailed_diff_tally _ _ Hd). cbn. repeat split; lia.
Qed.

(** X14 — In every result of the JSON and YAML comparators the summary
    covers the change list: [summary.modifications] is exactly the number
    of modification records, and [summary.additions] and
    [summary.deletions] are at least the number of addition and deletion
    records (they also count the list items DeepDiff reports as added or
    removed, for which no record is written). *)
Theorem deepdiff_summary_covers_the_change_list :
  forall (json_loads yaml_safe_load : string -> result value)
         (source_content target_content : string) (ignore_keys : list string)
         (strict : bool) (r : comparison),
    compare_json json_loads source_content target_content ignore_keys strict = Ok r \/
    compare_yaml yaml_safe_load source_content target_content ignore_keys strict = Ok r ->
    modifications (summary r) = count_kind modification (diff r) /\
    count_kind addition (diff r) <= additions (summary r) /\
    count_kind deletion (diff r) <= deletions (summary r).
Proof.
  intros json_loads yaml_safe_load source_content target_content ignore_keys strict r [H | H].
  - apply compare_json_returns in H as [t [Hd Hs]].
    now apply (summary_covers_the_list (render t)).
  - apply compare_yaml_returns in H as [t [Hd Hs]].
    now apply (summary_covers_the_list (render t)).
Qed.

Lemma deepdiff_summary_covers_the_change_list_witness :
  modifications (mkSummary 1 0 0) = count_kind modification [] /\
  count_kind addition [] <= additions (mkSummary 1 0 0) /\
  count_kind deletion [] <= deletions (mkSummary 1 0 0).
Proof.
  apply (deepdiff_summary_covers_the_change_list
           (loads_from JSONDecodeError grown_documents)
           (loads_from YAMLError yaml_documents)
           grown_source grown_target [] true
           (mkComparison (mkSummary 1 0 0) []
                         (mkFormatted ["  " ++ grown_source] ["  " ++ grown_target]))).
  left. reflexivity.
Defined.

Lemma assoc_of_key {A : Type} (items : list (string * A)) (k : string) :
  In k (map fst items) -> exists a, assoc k items = Some a.
Proof.
  induction items as [|[k' a] items IH]; simpl; [contradiction|].
  destruct (String.eqb k k') eqn:E; [now exists a|].
  intros [H | H]; [subst; now rewrite String.eqb_refl in E | auto].
Qed.

(** Looking up the keys of a dictionary in that dictionary never fails. *)
Lemma mapM_own_keys {A : Type} (make : string -> A -> change)
    (items : list (string * A)) (some : list string) :
  incl some (map fst items) ->
  exists records,
    mapM (fun p => a <- getitem (PathDict items) p ;; Ok (make p a)) some = Ok records.
Proof.
  induction some as [|k some IH]; intros Hincl.
  - now exists [].
  - destruct (assoc_of_key items k) as [a Ha]; [apply Hincl; now left|].
    destruct IH as [records Hr]; [intros x Hx; apply Hincl; now right|].
    exists (make k a :: records). cbn [mapM]. rewrite Hr.
    unfold getitem. rewrite Ha. reflexivity.
Qed.

(** The loops over a report: with an added or a removed dictionary item
    they raise, otherwise they write modifications only. *)
Lemma detailed_diff_of_sets (t : tree) :
  match t_added t, t_removed t with
  | [], [] => exists records,
                detailed_diff (render t) = Ok records /\
                Forall (fun c => change_type c = modification) records
  | _, _ => detailed_diff (render t) = Raise (mkExn TypeError set_index_error)
  end.
Proof.
  destruct t as [added removed changed types iter_added iter_removed].
  cbn [t_added t_removed]. destruct added as [|p ps]; [destruct removed as [|q qs]|];
    try reflexivity.
  destruct (mapM_own_keys
              (fun p ch => mkChange p modification (Some (old_value_of ch))
                                    (Some (new_value_of ch)))
              changed (map fst changed) (incl_refl _)) as [records Hr].
  exists records. split.
  - unfold detailed_diff, handle_additions, handle_deletions, handle_modifications, render.
    cbn [dictionary_item_added dictionary_item_removed values_changed keys mapM bind
         t_added t_removed t_changed].
    rewrite Hr. reflexivity.
  - apply (mapM_kind modification) in Hr as [_ F]; [exact F|].
    intros a c. destruct (getitem (PathDict changed) a); [|discriminate].
    cbn. now intros [= <-].
Qed.

Lemma returned_records (t : tree) (records : list change) :
  detailed_diff (render t) = Ok records ->
  Forall (fun c => change_type c = modification) records.
Proof.
  intros H. pose proof (detailed_diff_of_sets t) as Hs.
  destruct (t_added t); [destruct (t_removed t)|]; try congruence.
  destruct Hs as [records' [Hr F]]. congruence.
Qed.

(** X15 — Every record of a change list that the JSON or the YAML
    comparator returns is a modification: DeepDiff gives the added and
    removed dictionary items as sets of paths, the loops that would write
    additions and deletions index those sets by path, and so a comparison
    that finds an added or removed key raises instead of returning. *)
Theorem returned_records_are_modifications :
  forall (json_loads yaml_safe_load : string -> result value)
         (source_content target_content : string) (ignore_keys : list string)
         (strict : bool) (r : comparison),
    compare_json json_loads source_content target_content ignore_keys strict = Ok r \/
    compare_yaml yaml_safe_load source_content target_content ignore_keys strict = Ok r ->
    Forall (fun c => change_type c = modification) (diff r).
Proof.
  intros json_loads yaml_safe_load source_content target_content ignore_keys strict r [H | H].
  - apply compare_json_returns in H as [t [Hd _]]. now apply (returned_records t).
  - apply compare_yaml_returns in H as [t [Hd _]]. now apply (returned_records t).
Qed.

Lemma returned_records_are_modifications_witness :
  Forall (fun c => change_type c = modification)
         [mkChange "root['a'][0]" modification (Some (VInt 1)) (Some (VInt 3));
          mkChange "root['a'][2]" modification (Some (VInt 3)) (Some (VInt 1))].
Proof.
  apply (returned_records_are_modifications
           (loads_from JSONDecodeError reversed_documents)
           (loads_from YAMLError reversed_yaml_documents)
           reversed_source reversed_target [] true
           (mkComparison
              (mkSummary 0 0 2)
              [mkChange "root['a'][0]" modification (Some (VInt 1)) (Some (VInt 3));
               mkChange "root['a'][2]" modification (Some (VInt 3)) (Some (VInt 1))]
              (mkFormatted ["  " ++ reversed_source] ["  " ++ reversed_target]))).
  left. reflexivity.
Defined.










(* ===================================================================== *)
(** ** More on the line annotators *)
(* ===================================================================== *)

Lemma concat_cons_char (sep : string) (c : ascii) (piece : string) (rest : list string) :
  String.concat sep (String c piece :: rest) = String c (String.concat sep (piece :: rest)).
Proof. destruct rest; reflexivity. Qed.

(** Joining the pieces of a split with the separator gives the text back. *)
Lemma concat_split (sep : ascii) (s : string) :
  String.concat (String sep EmptyString) (PyStr.split sep s) = s.
Proof.
  induction s as [|c s IH]; [reflexivity|]. cbn [PyStr.split].
  destruct (Ascii.eqb c sep) eqn:E.
  - apply Ascii.eqb_eq in E. subst c.
    destruct (PyStr.split sep s) as [|piece rest] eqn:Es; [now apply split_not_nil in Es|].
    cbn [String.concat]. cbn [String.concat] in IH. now rewrite IH.
  - destruct (PyStr.split sep s) as [|piece rest] eqn:Es; [now apply split_not_nil in Es|].
    rewrite concat_cons_char. now rewrite IH.
Qed.

Lemma unmarked_chosen (t1 t2 : bool) (m1 m2 : ascii) (line : string) :
  unmarked (if t1 then String m1 (String " " line)
            else if t2 then String m2 (String " " line)
            else String " " (String " " line)) = line.
Proof. destruct t1, t2; reflexivity. Qed.

Lemma map_unmarked (f : string -> string) (lines : list string) :
  (forall line, unmarked (f line) = line) -> map unmarked (map f lines) = lines.
Proof.
  intros H. rewrite map_map. induction lines as [|l lines IH]; simpl; [reflexivity|].
  now rewrite H, IH.
Qed.

(** X17 — The annotation loses nothing of the texts: taking the marker (the
    first two characters) off every annotated line and joining the lines
    with newlines gives back the source text and the target text, for each
    of the three annotators and any change set. *)
Theorem annotation_can_be_undone :
  forall (source_content target_content : string) (changes : list change) (d : report),
    let undo lines := join_lines (map unmarked lines) in
    (undo (source (create_formatted_xml_diff source_content target_content changes)) =
     source_content /\
     undo (target (create_formatted_xml_diff source_content target_content changes)) =
     target_content) /\
    (undo (source (create_formatted_json_diff source_content target_content d)) =
     source_content /\
     undo (target (create_formatted_json_diff source_content target_content d)) =
     target_content) /\
    (undo (source (create_formatted_yaml_diff source_content target_content d)) =
     source_content /\
     undo (target (create_formatted_yaml_diff source_content target_content d)) =
     target_content).
Proof.
  intros source_content target_content changes d undo. unfold undo, join_lines.
  cbn [create_formatted_xml_diff create_formatted_json_diff create_formatted_yaml_diff
       source target].
  repeat split; (rewrite map_unmarked; [apply concat_split|]); intros line;
    apply unmarked_chosen.
Qed.

Lemma formatted_xml_of_no_change (content : string) :
  create_formatted_xml_diff content content [] =
  mkFormatted (all_unmarked content) (all_unmarked content).
Proof. reflexivity. Qed.

Lemma formatted_json_of_no_change (content : string) :
  create_formatted_json_diff content content (render nothing) =
  mkFormatted (all_unmarked content) (all_unmarked content).
Proof. reflexivity. Qed.

Lemma formatted_yaml_of_no_change (content : string) :
  create_formatted_yaml_diff content content (render nothing) =
  mkFormatted (all_unmarked content) (all_unmarked content).
Proof. reflexivity. Qed.

(** X18 — Comparing a text with itself gives, beside the empty change list
    and the zero summary, the annotated text with no line marked: every
    line of the text behind two spaces, on the source side and on the
    target side. This holds for the XML comparator under any keys to
    ignore, and for the JSON and YAML comparators when no key to ignore is
    the empty string. *)
Theorem identical_inputs_are_left_unmarked :
  forall (json_loads yaml_safe_load : string -> result value)
         (ET_fromstring : string -> result element)
         (content : string) (ignore_keys : list string) (strict : bool),
    let unchanged :=
      Ok (mkComparison no_changes []
                       (mkFormatted (all_unmarked content) (all_unmarked content))) in
    (forall x, json_loads content = Ok x -> well_formed x = true ->
       ~ In EmptyString ignore_keys ->
       compare_json json_loads content content ignore_keys strict = unchanged) /\
    (forall x, yaml_safe_load content = Ok x -> well_formed x = true ->
       ~ In EmptyString ignore_keys ->
       compare_yaml yaml_safe_load content content ignore_keys strict = unchanged) /\
    (forall e, ET_fromstring content = Ok e ->
       compare_xml ET_fromstring content content ignore_keys strict = unchanged).
Proof.
  intros json_loads yaml_safe_load ET_fromstring content ignore_keys strict unchanged.
  unfold unchanged. split; [|split].
  - intros x Hx Hwf Hnot.
    erewrite compare_json_runs by (eassumption || now apply DeepDiff_same).
    now rewrite detailed_diff_nothing, formatted_json_of_no_change.
  - intros x Hx Hwf Hnot.
    erewrite compare_yaml_runs by (eassumption || now apply DeepDiff_same).
    now rewrite detailed_diff_nothing, formatted_yaml_of_no_change.
  - intros e He. erewrite compare_xml_runs by eassumption. cbn zeta.
    rewrite compare_xml_dicts_same
      by (rewrite <- xml_to_dict_is_dict; apply xml_to_dict_well_formed).
    now rewrite formatted_xml_of_no_change.
Qed.

Lemma identical_inputs_are_left_unmarked_witness :
  compare_xml (loads_from ParseError xml_documents) two_items_xml two_items_xml ["item"] true =
  Ok (mkComparison no_changes []
                   (mkFormatted (all_unmarked two_items_xml) (all_unmarked two_items_xml))) /\
  compare_json (loads_from JSONDecodeError scenario1_documents)
               scenario1_target scenario1_target ["b"] false =
  Ok (mkComparison no_changes []
                   (mkFormatted (all_unmarked scenario1_target) (all_unmarked scenario1_target))) /\
  compare_yaml (loads_from YAMLError yaml_documents) yaml_two_keys yaml_two_keys ["a"] true =
  Ok (mkComparison no_changes []
                   (mkFormatted (all_unmarked yaml_two_keys) (all_unmarked yaml_two_keys))).
Proof.
  split; [|split].
  - apply (proj2 (proj2 (identical_inputs_are_left_unmarked
                           (loads_from JSONDecodeError scenario1_documents)
                           (loads_from YAMLError yaml_documents)
                           (loads_from ParseError xml_documents)
                           two_items_xml ["item"] true)) two_items_root).
    reflexivity.
  - apply (proj1 (identical_inputs_are_left_unmarked
                    (loads_from JSONDecodeError scenario1_documents)
                    (loads_from YAMLError yaml_documents)
                    (loads_from ParseError xml_documents)
                    scenario1_target ["b"] false) scenario1_target_data);
      [reflexivity | reflexivity | intros [H | []]; discriminate].
  - apply (proj1 (proj2 (identical_inputs_are_left_unmarked
                           (loads_from JSONDecodeError scenario1_documents)
                           (loads_from YAMLError yaml_documents)
                           (loads_from ParseError xml_documents)
                           yaml_two_keys ["a"] true)) scenario1_source_data);
      [reflexivity | reflexivity | intros [H | []]; discriminate].
Defined.

Lemma split_root (rest : string) :
  PyStr.split PyStr.dot ("root" ++ "." ++ rest) = "root" :: PyStr.split PyStr.dot rest.
Proof.
  cbn. destruct (PyStr.split PyStr.dot rest) eqn:E; [now apply split_not_nil in E|].
  reflexivity.
Qed.

Lemma root_is_a_piece (source_dict target_dict : pydict) (ignore_keys : list string)
    (c : change) (line : string) :
  In c (compare_xml_dicts source_dict target_dict ignore_keys "root") ->
  occurs "root" line ->
  has_change (change_type c) (compare_xml_dicts source_dict target_dict ignore_keys "root")
             line = true.
Proof.
  intros Hin Hocc. apply has_change_spec. exists c, "root". repeat split; auto.
  assert (Hrooted : exists rest, path c = "root" ++ "." ++ rest).
  { revert Hin. unfold compare_xml_dicts.
    apply (compare_xml_values_origin ignore_keys
             (fun p c => exists rest, path c = p ++ "." ++ rest)).
    - intros p key v _. now exists key.
    - intros p key old v _ _ _. now exists key.
    - intros p key v _. now exists key.
    - intros p key c' _ [rest H]. exists (key ++ "." ++ rest).
      rewrite H. now rewrite !append_associative. }
  destruct Hrooted as [rest ->]. rewrite split_root. now left.
Qed.

(** X19 — Every path of the XML comparator starts with [root], and the XML
    annotator tests every piece of a path: as soon as the change list
    holds a deletion, every source line in which the text [root] occurs is
    marked [-]; as soon as it holds an addition, every such target line is
    marked [+]; and with a modification no such line is left unmarked on
    either side. *)
Theorem xml_annotator_marks_every_line_with_root :
  forall (source_dict target_dict : pydict) (ignore_keys : list string)
         (c : change) (line : string),
    let changes := compare_xml_dicts source_dict target_dict ignore_keys "root" in
    In c changes -> occurs "root" line ->
    (change_type c = deletion -> xml_source_line changes line = "- " ++ line) /\
    (change_type c = addition -> xml_target_line changes line = "+ " ++ line) /\
    (change_type c = modification ->
     xml_source_line changes line <> "  " ++ line /\
     xml_target_line changes line <> "  " ++ line).
Proof.
  intros source_dict target_dict ignore_keys c line changes Hin Hocc.
  pose proof (root_is_a_piece _ _ _ _ _ Hin Hocc) as H. fold changes in H.
  unfold xml_source_line, xml_target_line.
  split; [|split]; intros Hk; rewrite Hk in H; rewrite H.
  - reflexivity.
  - reflexivity.
  - split.
    + destruct (has_change deletion changes line); discriminate.
    + destruct (has_change addition changes line); discriminate.
Qed.

Lemma xml_annotator_marks_every_line_with_root_witness :
  let changes := compare_xml_dicts server_old_dict server_new_dict [] "root" in
  (change_type host_deleted = deletion ->
   xml_source_line changes "<!-- root of the tree -->" = "- " ++ "<!-- root of the tree -->") /\
  (change_type host_deleted = addition ->
   xml_target_line changes "<!-- root of the tree -->" = "+ " ++ "<!-- root of the tree -->") /\
  (change_type host_deleted = modification ->
   xml_source_line changes "<!-- root of the tree -->" <> "  " ++ "<!-- root of the tree -->" /\
   xml_target_line changes "<!-- root of the tree -->" <> "  " ++ "<!-- root of the tree -->").
Proof.
  apply (xml_annotator_marks_every_line_with_root server_old_dict server_new_dict []
           host_deleted "<!-- root of the tree -->").
  - vm_compute. tauto.
  - exists "<!-- ", " of the tree -->". reflexivity.
Defined.

(* ===================================================================== *)
(** ** More on the XML comparator *)
(* ===================================================================== *)

Lemma counts_add_up (changes : list change) :
  count_kind addition changes + count_kind deletion changes +
  count_kind modification changes = List.length changes.
Proof.
  unfold count_kind. induction changes as [|c changes IH]; simpl; [reflexivity|].
  destruct (change_type c); simpl; lia.
Qed.

(** X20 — In every result of the XML comparator the summary is the tally
    of the change list, kind by kind, and the three counts add up to the
    length of the list: no record goes uncounted and nothing is counted
    that has no record. *)
Theorem xml_summary_is_the_tally :
  forall (ET_fromstring : string -> result element)
         (source_content target_content : string) (ignore_keys : list string)
         (strict : bool) (r : comparison),
    compare_xml ET_fromstring source_content target_content ignore_keys strict = Ok r ->
    additions (summary r) = count_kind addition (diff r) /\
    deletions (summary r) = count_kind deletion (diff r) /\
    modifications (summary r) = count_kind modification (diff r) /\
    additions (summary r) + deletions (summary r) + modifications (summary r) =
    List.length (diff r).
Proof.
  intros ET_fromstring source_content target_content ignore_keys strict r H.
  apply compare_xml_summary_is_tally in H. rewrite H. cbn [additions deletions modifications].
  repeat split. apply counts_add_up.
Qed.

Lemma xml_summary_is_the_tally_witness :
  let r := mkComparison
             (mkSummary 0 0 1)
             [mkChange "root.item" modification
                       (Some (VDict [("text", VStr "1")]))
                       (Some (VList [VDict [("text", VStr "1")]; VDict [("text", VStr "2")]]))]
             (mkFormatted ["~ " ++ one_item_xml] ["~ " ++ two_items_xml]) in
  additions (summary r) = count_kind addition (diff r) /\
  deletions (summary r) = count_kind deletion (diff r) /\
  modifications (summary r) = count_kind modification (diff r) /\
  additions (summary r) + deletions (summary r) + modifications (summary r) =
  List.length (diff r).
Proof.
  intros r.
  apply (xml_summary_is_the_tally (loads_from ParseError xml_documents)
           one_item_xml two_items_xml [] true r).
  reflexivity.
Defined.

(** X21 — The XML comparator never looks at the tag of the root element:
    two documents whose roots carry different tags but the same text and
    the same children compare as identical. *)
Theorem xml_root_tag_is_not_compared :
  forall (ET_fromstring : string -> result element)
         (source_content target_content : string) (ignore_keys : list string)
         (strict : bool) (tag1 tag2 : string) (text : option string)
         (children : list element),
    ET_fromstring source_content = Ok (Element tag1 text children) ->
    ET_fromstring target_content = Ok (Element tag2 text children) ->
    compare_xml ET_fromstring source_content target_content ignore_keys strict =
    Ok (mkComparison no_changes []
                     (mkFormatted (all_unmarked source_content)
                                  (all_unmarked target_content))).
Proof.
  intros ET_fromstring source_content target_content ignore_keys strict
         tag1 tag2 text children Hs Ht.
  erewrite compare_xml_runs by eassumption. cbn zeta.
  change (xml_to_dict (Element tag2 text children))
    with (xml_to_dict (Element tag1 text children)).
  rewrite compare_xml_dicts_same
    by (rewrite <- xml_to_dict_is_dict; apply xml_to_dict_well_formed).
  reflexivity.
Qed.

Lemma xml_root_tag_is_not_compared_witness :
  compare_xml (loads_from ParseError renamed_root_documents)
              "<settings><item>1</item></settings>" "<options><item>1</item></options>"
              [] true =
  Ok (mkComparison no_changes []
                   (mkFormatted (all_unmarked "<settings><item>1</item></settings>")
                                (all_unmarked "<options><item>1</item></options>"))).
Proof.
  apply (xml_root_tag_is_not_compared (loads_from ParseError renamed_root_documents)
           "<settings><item>1</item></settings>" "<options><item>1</item></options>"
           [] true "settings" "options" None [item "1"]);
    reflexivity.
Defined.

Lemma filter_permutation {A : Type} (f : A -> bool) (l l' : list A) :
  Permutation l l' -> Permutation (filter f l) (filter f l').
Proof.
  induction 1 as [ |x l l' _ IH|x y l|l l' l'' _ IH1 _ IH2]; simpl.
  - constructor.
  - destruct (f x); [now constructor | exact IH].
  - destruct (f x), (f y); try apply Permutation_refl. apply perm_swap.
  - eapply Permutation_trans; eassumption.
Qed.

Lemma filter_of_distinct_tags (children : list element) (key : string) :
  NoDup (map tag_of children) ->
  List.length (filter (fun child => String.eqb (tag_of child) key) children) <= 1.
Proof.
  induction children as [|c cs IH]; simpl; intros Hnd; [lia|].
  inversion Hnd as [|? ? Hc Hcs]; subst.
  destruct (String.eqb (tag_of c) key) eqn:E; [|auto].
  apply String.eqb_eq in E. simpl.
  rewrite filter_none; [simpl; lia|].
  intros c' Hc'. apply String.eqb_neq. intros F. apply Hc.
  apply in_map_iff. exists c'. split; [congruence | exact Hc'].
Qed.

Lemma same_filter_after_reordering (cs1 cs2 : list element) (key : string) :
  Permutation cs1 cs2 -> NoDup (map tag_of cs1) ->
  filter (fun child => String.eqb (tag_of child) key) cs1 =
  filter (fun child => String.eqb (tag_of child) key) cs2.
Proof.
  intros Hp Hnd. pose proof (filter_of_distinct_tags cs1 key Hnd) as Hlen.
  pose proof (filter_permutation (fun child => String.eqb (tag_of child) key) _ _ Hp) as Hf.
  destruct (filter _ cs1) as [|a [|b rest]]; simpl in Hlen; [| |lia].
  - apply Permutation_nil in Hf. now rewrite Hf.
  - pose proof (Permutation_length Hf) as Hl.
    destruct (filter _ cs2) as [|a' [|b' rest']]; simpl in Hl; try lia.
    apply Permutation_length_1 in Hf. now subst.
Qed.

(** Two dictionaries that hold each key once and answer every lookup alike
    are equal. *)
Lemma py_eq_of_same_lookups (d1 d2 : pydict) :
  well_formed (VDict d1) = true -> well_formed (VDict d2) = true ->
  (forall k, PyDict.get k d1 = PyDict.get k d2) ->
  py_eq (VDict d1) (VDict d2) = true.
Proof.
  intros Hw1 Hw2 Hsame.
  pose proof Hw1 as Hw1'. pose proof Hw2 as Hw2'.
  apply well_formed_dict in Hw1' as [Hd1 Ha1], Hw2' as [Hd2 Ha2].
  rewrite Forall_forall in Ha1, Ha2.
  assert (Hkeys : forall k, In k (map fst d1) <-> In k (map fst d2)).
  { intros k. rewrite <- !dict_mem_In. unfold PyDict.mem. now rewrite Hsame. }
  apply py_eq_dict. split.
  - apply distinct_NoDup in Hd1, Hd2.
    assert (L1 : List.length (map fst d1) <= List.length (map fst d2))
      by (apply NoDup_incl_length; [exact Hd1 | intros k; apply Hkeys]).
    assert (L2 : List.length (map fst d2) <= List.length (map fst d1))
      by (apply NoDup_incl_length; [exact Hd2 | intros k; apply Hkeys]).
    rewrite !length_map in L1, L2. lia.
  - intros k v Hin. exists v. split.
    + rewrite <- Hsame. now apply get_of_distinct.
    + apply py_eq_refl. apply (Ha1 _ Hin).
Qed.

(** X22 — The XML comparator does not see the order of sibling elements
    that carry different tags, whatever [strict] says: two documents whose
    roots have the same text and the same children in a different order,
    no two children sharing a tag, compare as identical. *)
Theorem xml_sibling_order_is_not_compared :
  forall (ET_fromstring : string -> result element)
         (source_content target_content : string) (ignore_keys : list string)
         (strict : bool) (tag1 tag2 : string) (text : option string)
         (children1 children2 : list element),
    ET_fromstring source_content = Ok (Element tag1 text children1) ->
    ET_fromstring target_content = Ok (Element tag2 text children2) ->
    Permutation children1 children2 ->
    NoDup (map tag_of children1) ->
    compare_xml ET_fromstring source_content target_content ignore_keys strict =
    Ok (mkComparison no_changes []
                     (mkFormatted (all_unmarked source_content)
                                  (all_unmarked target_content))).
Proof.
  intros ET_fromstring source_content target_content ignore_keys strict
         tag1 tag2 text children1 children2 Hs Ht Hperm Hnd.
  erewrite compare_xml_runs by eassumption. cbn zeta.
  rewrite compare_xml_dicts_equal_nothing; [reflexivity | | |].
  - rewrite <- xml_to_dict_is_dict. apply xml_to_dict_well_formed.
  - rewrite <- xml_to_dict_is_dict. apply xml_to_dict_well_formed.
  - apply py_eq_of_same_lookups.
    + rewrite <- xml_to_dict_is_dict. apply xml_to_dict_well_formed.
    + rewrite <- xml_to_dict_is_dict. apply xml_to_dict_well_formed.
    + intros k. rewrite !xml_to_dict_entries. unfold entries_for.
      cbn [text_of children_of]. now rewrite (same_filter_after_reordering _ _ k Hperm Hnd).
Qed.

Lemma xml_sibling_order_is_not_compared_witness :
  compare_xml (loads_from ParseError swapped_documents)
              "<r><a>1</a><b>2</b></r>" "<r><b>2</b><a>1</a></r>" [] true =
  Ok (mkComparison no_changes []
                   (mkFormatted (all_unmarked "<r><a>1</a><b>2</b></r>")
                                (all_unmarked "<r><b>2</b><a>1</a></r>"))).
Proof.
  apply (xml_sibling_order_is_not_compared (loads_from ParseError swapped_documents)
           "<r><a>1</a><b>2</b></r>" "<r><b>2</b><a>1</a></r>" [] true "r" "r" None
           [Element "a" (Some "1") []; Element "b" (Some "2") []]
           [Element "b" (Some "2") []; Element "a" (Some "1") []]).
  - reflexivity.
  - reflexivity.
  - apply perm_swap.
  - repeat constructor; simpl; intuition discriminate.
Defined.

(* ===================================================================== *)
(** ** How the annotators choose the marker *)
(* ===================================================================== *)

(** X23 — The XML annotator marks a source line [-]
    exactly when a piece of some deletion's path, split on [.], occurs in
    the line, else [~] when a piece of some modification's path does, else
    leaves it unmarked; target lines likewise with [+] for additions. The
    JSON and YAML annotators do not split paths: they mark a source line
    [-] exactly when the whole path of some removed dictionary item occurs
    in the line, else [~] when the whole path of some changed value does,
    else leave it unmarked; target lines likewise with [+] for added
    dictionary items. *)
Theorem annotators_mark_lines :
  forall (source_content target_content : string) (changes : list change) (d : report),
    let source_lines := PyStr.split PyStr.newline source_content in
    let target_lines := PyStr.split PyStr.newline target_content in
    let by_pieces first_kind marker out line :=
      chosen (fragment_hit first_kind changes line)
             (fragment_hit modification changes line) marker "~ " out line in
    let by_whole_path (first_section : section value) marker out line :=
      chosen (path_hit first_section line)
             (path_hit (values_changed d) line) marker "~ " out line in
    (Forall2 (by_pieces deletion "- ")
             (source (create_formatted_xml_diff source_content target_content changes))
             source_lines /\
     Forall2 (by_pieces addition "+ ")
             (target (create_formatted_xml_diff source_content target_content changes))
             target_lines) /\
    (Forall2 (by_whole_path (dictionary_item_removed d) "- ")
             (source (create_formatted_json_diff source_content target_content d))
             source_lines /\
     Forall2 (by_whole_path (dictionary_item_added d) "+ ")
             (target (create_formatted_json_diff source_content target_content d))
             target_lines) /\
    (Forall2 (by_whole_path (dictionary_item_removed d) "- ")
             (source (create_formatted_yaml_diff source_content target_content d))
             source_lines /\
     Forall2 (by_whole_path (dictionary_item_added d) "+ ")
             (target (create_formatted_yaml_diff source_content target_content d))
             target_lines).
Proof.
  intros source_content target_content changes d source_lines target_lines
         by_pieces by_whole_path.
  cbn [create_formatted_xml_diff create_formatted_json_diff create_formatted_yaml_diff
       source target].
  repeat split; apply Forall2_map_self; intros line.
  - apply xml_source_line_chosen.
  - apply xml_target_line_chosen.
  - apply json_source_line_chosen.
  - apply json_target_line_chosen.
  - apply yaml_source_line_chosen.
  - apply yaml_target_line_chosen.
Qed.

(* ===================================================================== *)
(** ** Repeated children in another order *)
(* ===================================================================== *)

(** X24 — The XML comparator takes the flag [strict] and never reads it:
    for the items 1, 2, 3 as repeated children of the source and 3, 2, 1
    of the target it returns one modification, at the path of the
    sequence and from the one sequence to the other, for either value of
    the flag. *)
Theorem xml_reversed_items_are_one_modification :
  forall (ET_fromstring : string -> result element)
         (source_content target_content : string) (strict : bool),
    ET_fromstring source_content = Ok ascending_root ->
    ET_fromstring target_content = Ok descending_root ->
    exists formatted,
      compare_xml ET_fromstring source_content target_content [] strict =
      Ok (mkComparison
            (mkSummary 0 0 1)
            [mkChange "root.item" modification
                      (Some (texts ["1"; "2"; "3"])) (Some (texts ["3"; "2"; "1"]))]
            formatted).
Proof.
  intros ET_fromstring source_content target_content strict Hs Ht.
  erewrite compare_xml_runs by eassumption. eexists. reflexivity.
Qed.

Lemma xml_reversed_items_are_one_modification_witness :
  exists formatted,
    compare_xml (loads_from ParseError reversed_xml_documents)
                ascending_xml descending_xml [] false =
    Ok (mkComparison
          (mkSummary 0 0 1)
          [mkChange "root.item" modification
                    (Some (texts ["1"; "2"; "3"])) (Some (texts ["3"; "2"; "1"]))]
          formatted).
Proof.
  apply (xml_reversed_items_are_one_modification
           (loads_from ParseError reversed_xml_documents)
           ascending_xml descending_xml false);
    reflexivity.
Defined.
